(** * The realtime audio bridge of [src/index.js]

    The [/media-stream] route of [src/index.js] owns, per call, a telephony
    socket ([connection]) and a speech-AI socket ([openAiWs]) and five closure
    variables shared by the callbacks registered on the two sockets.  This
    file embeds those callbacks as state-passing handlers and proves what
    they do to the closure variables and which frames they send.

    Modelling conventions.
    - A frame that arrives is given as the result of [JSON.parse]: [None]
      when the text is not a JSON object, [Some] record otherwise, with the
      fields typed as the wire formats declare them (stream identifiers,
      payloads and item identifiers are strings, [media.timestamp] is an
      integer number of milliseconds).  Optional members are [option]s.
    - Numbers are integers of [Z]; the only arithmetic of the handlers is
      one subtraction.
    - [openAiWs.readyState] is read by two callbacks; it is an input of
      those callbacks, as observed when they run.
    - A handler returns the closure variables after it ran and the calls to
      [send] and [close] it made, in order.  Console output is not part of
      the model. *)

From Stdlib Require Import ZArith List String Bool Lia Sorted.
Import ListNotations.

Local Open Scope Z_scope.
Local Open Scope string_scope.
Local Open Scope list_scope.

(** ** JavaScript truthiness of the values the callbacks test *)

Module Js.

(** A string is falsy exactly when it is empty. *)
Definition truthy_string (s : string) : bool := negb (String.eqb s "").

(** [null] and [undefined] are falsy. *)
Definition truthy_ostring (v : option string) : bool :=
  match v with
  | Some s => truthy_string s
  | None => false
  end.

(** A number is falsy exactly when it is [0]; [null] is falsy. *)
Definition truthy_onumber (v : option Z) : bool :=
  match v with
  | Some n => negb (Z.eqb n 0)
  | None => false
  end.

(** [arr.length] used as a condition. *)
Definition truthy_length {A : Type} (l : list A) : bool :=
  match l with
  | [] => false
  | _ :: _ => true
  end.

End Js.

(** ** Inbound frames *)

(** Frames of the telephony media-stream protocol, after [JSON.parse]. *)
Module Twilio.

(** [start.streamSid] is a string, as the wire format has it; line 225
    stores it unchecked, and a frame whose [streamSid] is null or absent is
    outside this record. *)
Record Start := { streamSid : string }.

Record Media := { timestamp : Z; payload : string }.

Record Msg := {
  event : string;
  start : option Start;
  media : option Media
}.

Definition start_msg (sid : string) : Msg :=
  {| event := "start"; start := Some {| streamSid := sid |}; media := None |}.

Definition media_msg (ts : Z) (p : string) : Msg :=
  {| event := "media"; start := None;
     media := Some {| timestamp := ts; payload := p |} |}.

Definition mark_msg : Msg :=
  {| event := "mark"; start := None; media := None |}.

End Twilio.

(** Events of the speech-AI realtime protocol, after [JSON.parse]. *)
Module OpenAi.

Record Response := {
  type : string;
  delta : option string;
  item_id : option string
}.

Definition audio_delta (d : string) (item : option string) : Response :=
  {| type := "response.audio.delta"; delta := Some d; item_id := item |}.

Definition speech_started : Response :=
  {| type := "input_audio_buffer.speech_started";
     delta := None; item_id := None |}.

End OpenAi.

(** [WebSocket.readyState] *)
Inductive ReadyState := CONNECTING | OPEN | CLOSING | CLOSED.

Definition is_OPEN (r : ReadyState) : bool :=
  match r with
  | OPEN => true
  | _ => false
  end.

(** ** Outbound frames and effects *)

(** What [connection.send] is given (before [JSON.stringify]). *)
Inductive TwilioFrame :=
| MediaFrame (streamSid : option string) (payload : string)
| MarkFrame (streamSid : option string) (name : string)
| ClearFrame (streamSid : option string).

(** What [openAiWs.send] is given. *)
Inductive OpenAiFrame :=
| AudioAppend (audio : string)
| ItemTruncate (item_id : string) (content_index : Z) (audio_end_ms : Z).

(** The two legs of a call. *)
Inductive Leg := Telephony | SpeechAi.

(** The calls a callback makes on the sockets. *)
Inductive Effect :=
| ConnectionSend (f : TwilioFrame)
| OpenAiSend (f : OpenAiFrame)
| Close (l : Leg).

Definition frame_streamSid (f : TwilioFrame) : option string :=
  match f with
  | MediaFrame sid _ => sid
  | MarkFrame sid _ => sid
  | ClearFrame sid => sid
  end.

(** ** Session state: the closure variables of the route *)

Record Session := {
  streamSid : option string;
  latestMediaTimestamp : Z;
  lastAssistantItem : option string;
  markQueue : list string;
  responseStartTimestampTwilio : option Z
}.

(** The values of the [let] declarations at the top of the route. *)
Definition initial : Session :=
  {| streamSid := None;
     latestMediaTimestamp := 0;
     lastAssistantItem := None;
     markQueue := [];
     responseStartTimestampTwilio := None |}.

(** ** A monad for the callbacks

    A callback reads and assigns the closure variables, calls [send] and
    [close], and may throw; what it assigned and sent before it threw
    stays. *)

Inductive Completion (A : Type) :=
| Normal (a : A)
| Thrown.
Arguments Normal {A} a.
Arguments Thrown {A}.

Definition Handler (A : Type) : Type :=
  Session -> Completion A * Session * list Effect.

Definition ret {A : Type} (a : A) : Handler A :=
  fun s => (Normal a, s, []).

Definition bind {A B : Type} (m : Handler A) (k : A -> Handler B) : Handler B :=
  fun s =>
    match m s with
    | (Normal a, s1, out1) =>
        match k a s1 with
        | (r, s2, out2) => (r, s2, out1 ++ out2)
        end
    | (Thrown, s1, out1) => (Thrown, s1, out1)
    end.

Definition throw {A : Type} : Handler A :=
  fun s => (Thrown, s, []).

(** [try { body } catch (err) { console.error(...) }] *)
Definition try_catch (body : Handler unit) : Handler unit :=
  fun s =>
    match body s with
    | (_, s1, out1) => (Normal tt, s1, out1)
    end.

Definition read {A : Type} (var : Session -> A) : Handler A :=
  fun s => (Normal (var s), s, []).

Definition assign (upd : Session -> Session) : Handler unit :=
  fun s => (Normal tt, upd s, []).

Definition emit (e : Effect) : Handler unit :=
  fun s => (Normal tt, s, [e]).

Definition when (c : bool) (body : Handler unit) : Handler unit :=
  if c then body else ret tt.

Declare Scope handler_scope.
Delimit Scope handler_scope with handler.
Notation "x <- m ;; k" := (bind m (fun x => k))
  (at level 61, m at next level, right associativity) : handler_scope.
Notation "m ;; k" := (bind m (fun _ => k))
  (at level 61, right associativity) : handler_scope.
Local Open Scope handler_scope.

(** The closure variables after a handler ran, and the calls it made. *)
Definition state_after (h : Handler unit) (s : Session) : Session :=
  snd (fst (h s)).

Definition emitted (h : Handler unit) (s : Session) : list Effect :=
  snd (h s).

(** Assignments to the closure variables. *)
Definition set_streamSid (v : option string) : Handler unit :=
  assign (fun s =>
    {| streamSid := v;
       latestMediaTimestamp := latestMediaTimestamp s;
       lastAssistantItem := lastAssistantItem s;
       markQueue := markQueue s;
       responseStartTimestampTwilio := responseStartTimestampTwilio s |}).

Definition set_latestMediaTimestamp (v : Z) : Handler unit :=
  assign (fun s =>
    {| streamSid := streamSid s;
       latestMediaTimestamp := v;
       lastAssistantItem := lastAssistantItem s;
       markQueue := markQueue s;
       responseStartTimestampTwilio := responseStartTimestampTwilio s |}).

Definition set_lastAssistantItem (v : option string) : Handler unit :=
  assign (fun s =>
    {| streamSid := streamSid s;
       latestMediaTimestamp := latestMediaTimestamp s;
       lastAssistantItem := v;
       markQueue := markQueue s;
       responseStartTimestampTwilio := responseStartTimestampTwilio s |}).

Definition set_markQueue (v : list string) : Handler unit :=
  assign (fun s =>
    {| streamSid := streamSid s;
       latestMediaTimestamp := latestMediaTimestamp s;
       lastAssistantItem := lastAssistantItem s;
       markQueue := v;
       responseStartTimestampTwilio := responseStartTimestampTwilio s |}).

Definition set_responseStartTimestampTwilio (v : option Z) : Handler unit :=
  assign (fun s =>
    {| streamSid := streamSid s;
       latestMediaTimestamp := latestMediaTimestamp s;
       lastAssistantItem := lastAssistantItem s;
       markQueue := markQueue s;
       responseStartTimestampTwilio := v |}).

(** Socket calls. *)
Definition connection_send (f : TwilioFrame) : Handler unit :=
  emit (ConnectionSend f).

Definition openAiWs_send (f : OpenAiFrame) : Handler unit :=
  emit (OpenAiSend f).

Definition openAiWs_close : Handler unit :=
  emit (Close SpeechAi).

(** [JSON.parse] throws on text that is not JSON (and the first member read
    throws on [null]); either way control reaches the [catch] clause. *)
Definition JSON_parse {A : Type} (raw : option A) : Handler A :=
  match raw with
  | Some v => ret v
  | None => throw
  end.

(** Reading a member of a sub-object that is absent throws a [TypeError]. *)
Definition member_of {A : Type} (obj : option A) : Handler A :=
  match obj with
  | Some v => ret v
  | None => throw
  end.

(** ** The callbacks *)

(** [openAiWs.on("message", ...)], lines 151-218: the [try] block. *)
Definition openAiWs_message_body (data : option OpenAi.Response) : Handler unit :=
  response <- JSON_parse data ;;
  (* Relay audio deltas back to Twilio *)
  match OpenAi.delta response with
  | Some delta =>
      when (String.eqb (OpenAi.type response) "response.audio.delta"
            && Js.truthy_string delta) (
        sid <- read streamSid ;;
        connection_send (MediaFrame sid delta) ;;
        started <- read responseStartTimestampTwilio ;;
        when (negb (Js.truthy_onumber started)) (
          latest <- read latestMediaTimestamp ;;
          set_responseStartTimestampTwilio (Some latest)) ;;
        when (Js.truthy_ostring (OpenAi.item_id response))
          (set_lastAssistantItem (OpenAi.item_id response)) ;;
        (* Mark stream for truncation control *)
        sid <- read streamSid ;;
        when (Js.truthy_ostring sid) (
          connection_send (MarkFrame sid "responsePart") ;;
          queue <- read markQueue ;;
          set_markQueue (queue ++ ["responsePart"])))
  | None => ret tt
  end ;;
  (* Truncate audio when user starts speaking *)
  when (String.eqb (OpenAi.type response) "input_audio_buffer.speech_started") (
    queue <- read markQueue ;;
    started <- read responseStartTimestampTwilio ;;
    match started with
    | Some start_ms =>
        when (Js.truthy_length queue) (
          latest <- read latestMediaTimestamp ;;
          let elapsed := latest - start_ms in
          item <- read lastAssistantItem ;;
          match item with
          | Some id =>
              when (Js.truthy_string id)
                (openAiWs_send (ItemTruncate id 0 elapsed))
          | None => ret tt
          end ;;
          sid <- read streamSid ;;
          connection_send (ClearFrame sid) ;;
          set_markQueue [] ;;
          set_lastAssistantItem None ;;
          set_responseStartTimestampTwilio None)
    | None => ret tt
    end).

Definition openAiWs_on_message (data : option OpenAi.Response) : Handler unit :=
  try_catch (openAiWs_message_body data).

(** [connection.on("message", ...)], lines 220-250: the [try] block.
    [readyState] is [openAiWs.readyState] when the callback runs. *)
Definition connection_message_body (readyState : ReadyState)
    (raw : option Twilio.Msg) : Handler unit :=
  msg <- JSON_parse raw ;;
  if String.eqb (Twilio.event msg) "start" then
    start <- member_of (Twilio.start msg) ;;
    set_streamSid (Some (Twilio.streamSid start)) ;;
    set_responseStartTimestampTwilio None ;;
    set_latestMediaTimestamp 0
  else if String.eqb (Twilio.event msg) "media" then
    media <- member_of (Twilio.media msg) ;;
    set_latestMediaTimestamp (Twilio.timestamp media) ;;
    when (is_OPEN readyState)
      (openAiWs_send (AudioAppend (Twilio.payload media)))
  else if String.eqb (Twilio.event msg) "mark" then
    queue <- read markQueue ;;
    when (Js.truthy_length queue) (set_markQueue (tl queue))
  else
    ret tt.

Definition connection_on_message (readyState : ReadyState)
    (raw : option Twilio.Msg) : Handler unit :=
  try_catch (connection_message_body readyState raw).

(** [connection.on("close", ...)], lines 252-255. *)
Definition connection_on_close (readyState : ReadyState) : Handler unit :=
  when (is_OPEN readyState) openAiWs_close.

(** [openAiWs.on("close", ...)], lines 257-259: a log line. *)
Definition openAiWs_on_close : Handler unit := ret tt.

(** [openAiWs.on("error", ...)], lines 261-263: a log line. *)
Definition openAiWs_on_error : Handler unit := ret tt.

(** ** Sequences of events *)

Inductive Event :=
| ConnectionMessage (readyState : ReadyState) (raw : option Twilio.Msg)
| ConnectionClose (readyState : ReadyState)
| OpenAiMessage (data : option OpenAi.Response)
| OpenAiClose
| OpenAiError.

Definition dispatch (e : Event) : Handler unit :=
  match e with
  | ConnectionMessage r raw => connection_on_message r raw
  | ConnectionClose r => connection_on_close r
  | OpenAiMessage data => openAiWs_on_message data
  | OpenAiClose => openAiWs_on_close
  | OpenAiError => openAiWs_on_error
  end.

(** The event loop runs one callback at a time, to completion. *)
Fixpoint run (es : list Event) : Handler unit :=
  match es with
  | [] => ret tt
  | e :: es' => dispatch e ;; run es'
  end.

(** A session state is reachable when some sequence of events leads to it
    from the initial values of the closure variables. *)
Definition reachable (s : Session) : Prop :=
  exists es, state_after (run es) initial = s.

(** The states passed through: the closure variables after each event. *)
Fixpoint trace (es : list Event) (s : Session) : list Session :=
  match es with
  | [] => []
  | e :: es' =>
      let s' := state_after (dispatch e) s in
      s' :: trace es' s'
  end.

(** Classification of events, by the tests the callbacks make. *)

(** A speech-AI event that enters the relay branch (line 160). *)
Definition is_audio_delta (r : OpenAi.Response) : bool :=
  match OpenAi.delta r with
  | Some d =>
      String.eqb (OpenAi.type r) "response.audio.delta" && Js.truthy_string d
  | None => false
  end.



(** A telephony frame that enters [case "start"]. *)
Definition is_start_event (e : Event) : bool :=
  match e with
  | ConnectionMessage _ (Some m) => String.eqb (Twilio.event m) "start"
  | _ => false
  end.

Definition media_event (r : ReadyState) (m : Twilio.Media) : Event :=
  ConnectionMessage r
    (Some {| Twilio.event := "media"; Twilio.start := None;
             Twilio.media := Some m |}).

Definition mark_event (r : ReadyState) : Event :=
  ConnectionMessage r (Some Twilio.mark_msg).

(** ** The scenarios of the specification, run on the handlers *)

Example scenario_ABC :
  let es := [ ConnectionMessage OPEN (Some (Twilio.start_msg "SS1"));
              ConnectionMessage OPEN (Some (Twilio.media_msg 500 "AAAA"));
              OpenAiMessage (Some (OpenAi.audio_delta "BBBB" (Some "it1")));
              ConnectionMessage OPEN (Some (Twilio.media_msg 1200 "CCCC"));
              OpenAiMessage (Some OpenAi.speech_started) ] in
  run es initial =
    (Normal tt,
     {| streamSid := Some "SS1"; latestMediaTimestamp := 1200;
        lastAssistantItem := None; markQueue := [];
        responseStartTimestampTwilio := None |},
     [ OpenAiSend (AudioAppend "AAAA");
       ConnectionSend (MediaFrame (Some "SS1") "BBBB");
       ConnectionSend (MarkFrame (Some "SS1") "responsePart");
       OpenAiSend (AudioAppend "CCCC");
       OpenAiSend (ItemTruncate "it1" 0 700);
       ConnectionSend (ClearFrame (Some "SS1")) ]).
Proof. reflexivity. Qed.

(** ** Equations of the handlers *)

(** Case analysis that decides the truthiness of a variable. *)
Ltac by_truthiness_of_string x :=
  destruct x as [| ? ?].
Ltac by_truthiness_of_ostring x :=
  destruct x as [[| ? ?]|].
Ltac by_truthiness_of_onumber x :=
  destruct x as [[| ? | ?]|].

Ltac unfold_handler :=
  unfold openAiWs_on_message, connection_on_message, connection_on_close,
    openAiWs_message_body, connection_message_body,
    openAiWs_on_close, openAiWs_on_error, try_catch, JSON_parse, member_of,
    set_streamSid, set_latestMediaTimestamp, set_lastAssistantItem,
    set_markQueue, set_responseStartTimestampTwilio,
    connection_send, openAiWs_send, openAiWs_close,
    bind, when, read, assign, emit, ret, throw.

Lemma truthy_string_true (d : string) : d <> "" -> Js.truthy_string d = true.
Proof.
  intros Hd. unfold Js.truthy_string.
  apply negb_true_iff, String.eqb_neq. exact Hd.
Qed.

(** Text that is not JSON: the [catch] clause logs, nothing else happens. *)
Lemma openAiWs_on_message_unparsable (s : Session) :
  openAiWs_on_message None s = (Normal tt, s, []).
Proof. reflexivity. Qed.

(** The relay branch, lines 160-189. *)
Lemma openAiWs_on_message_delta (s : Session) (r : OpenAi.Response) (d : string) :
  OpenAi.type r = "response.audio.delta" ->
  OpenAi.delta r = Some d ->
  Js.truthy_string d = true ->
  openAiWs_on_message (Some r) s =
    (Normal tt,
     {| streamSid := streamSid s;
        latestMediaTimestamp := latestMediaTimestamp s;
        lastAssistantItem :=
          if Js.truthy_ostring (OpenAi.item_id r) then OpenAi.item_id r
          else lastAssistantItem s;
        markQueue :=
          if Js.truthy_ostring (streamSid s)
          then markQueue s ++ ["responsePart"] else markQueue s;
        responseStartTimestampTwilio :=
          if Js.truthy_onumber (responseStartTimestampTwilio s)
          then responseStartTimestampTwilio s
          else Some (latestMediaTimestamp s) |},
     ConnectionSend (MediaFrame (streamSid s) d) ::
       (if Js.truthy_ostring (streamSid s)
        then [ConnectionSend (MarkFrame (streamSid s) "responsePart")]
        else [])).
Proof.
  intros Hty Hd Ht.
  destruct r as [ty dl it]; cbn in Hty, Hd; subst ty dl.
  destruct s as [sid latest item queue started].
  by_truthiness_of_string d; [discriminate Ht|].
  by_truthiness_of_onumber started; by_truthiness_of_ostring it;
    by_truthiness_of_ostring sid; reflexivity.
Qed.

(** The barge-in branch, lines 192-214, when its guard holds. *)
Lemma openAiWs_on_message_barge_in (s : Session) (r : OpenAi.Response) (t : Z) :
  OpenAi.type r = "input_audio_buffer.speech_started" ->
  markQueue s <> [] ->
  responseStartTimestampTwilio s = Some t ->
  openAiWs_on_message (Some r) s =
    (Normal tt,
     {| streamSid := streamSid s;
        latestMediaTimestamp := latestMediaTimestamp s;
        lastAssistantItem := None;
        markQueue := [];
        responseStartTimestampTwilio := None |},
     match lastAssistantItem s with
     | Some id =>
         if Js.truthy_string id
         then [OpenAiSend (ItemTruncate id 0 (latestMediaTimestamp s - t))]
         else []
     | None => []
     end ++ [ConnectionSend (ClearFrame (streamSid s))]).
Proof.
  intros Hty Hq Ht.
  destruct r as [ty dl it]; cbn in Hty; subst ty.
  destruct s as [sid latest item queue started]; cbn in Hq, Ht; subst started.
  destruct queue as [|m queue]; [congruence|].
  destruct dl as [d|]; by_truthiness_of_ostring item; reflexivity.
Qed.

(** The barge-in branch when its guard fails. *)
Lemma openAiWs_on_message_no_barge_in (s : Session) (r : OpenAi.Response) :
  OpenAi.type r = "input_audio_buffer.speech_started" ->
  markQueue s = [] \/ responseStartTimestampTwilio s = None ->
  openAiWs_on_message (Some r) s = (Normal tt, s, []).
Proof.
  intros Hty Hg.
  destruct r as [ty dl it]; cbn in Hty; subst ty.
  destruct s as [sid latest item queue started]; cbn in Hg.
  destruct dl as [d|], started as [t|], queue as [|m queue];
    try reflexivity; destruct Hg; congruence.
Qed.

(** Every other event (and a delta without payload) is only logged. *)
Lemma openAiWs_on_message_other (s : Session) (r : OpenAi.Response) :
  is_audio_delta r = false ->
  OpenAi.type r <> "input_audio_buffer.speech_started" ->
  openAiWs_on_message (Some r) s = (Normal tt, s, []).
Proof.
  intros Hd Hty. apply String.eqb_neq in Hty.
  destruct r as [ty dl it]; unfold is_audio_delta in Hd; cbn in Hd, Hty.
  unfold_handler; cbn. rewrite Hty.
  destruct dl as [d|]; [rewrite Hd|]; reflexivity.
Qed.

Lemma is_audio_delta_inv (r : OpenAi.Response) :
  is_audio_delta r = true ->
  exists d, OpenAi.type r = "response.audio.delta" /\
            OpenAi.delta r = Some d /\ Js.truthy_string d = true.
Proof.
  unfold is_audio_delta. destruct (OpenAi.delta r) as [d|]; [|discriminate].
  intros H. apply andb_true_iff in H. destruct H as [Hty Hd].
  apply String.eqb_eq in Hty. exists d. auto.
Qed.

(** Telephony side. *)

Lemma connection_on_message_unparsable (r : ReadyState) (s : Session) :
  connection_on_message r None s = (Normal tt, s, []).
Proof. reflexivity. Qed.

(** [case "start"], lines 224-229. *)
Lemma connection_on_message_start
    (r : ReadyState) (s : Session) (m : Twilio.Msg) (st : Twilio.Start) :
  Twilio.event m = "start" ->
  Twilio.start m = Some st ->
  connection_on_message r (Some m) s =
    (Normal tt,
     {| streamSid := Some (Twilio.streamSid st);
        latestMediaTimestamp := 0;
        lastAssistantItem := lastAssistantItem s;
        markQueue := markQueue s;
        responseStartTimestampTwilio := None |},
     []).
Proof.
  intros Hev Hst. destruct m as [ev ms mm]; cbn in Hev, Hst; subst ev ms.
  reflexivity.
Qed.

(** [msg.start] absent: [msg.start.streamSid] throws before any assignment. *)
Lemma connection_on_message_start_absent
    (r : ReadyState) (s : Session) (m : Twilio.Msg) :
  Twilio.event m = "start" ->
  Twilio.start m = None ->
  connection_on_message r (Some m) s = (Normal tt, s, []).
Proof.
  intros Hev Hst. destruct m as [ev ms mm]; cbn in Hev, Hst; subst ev ms.
  reflexivity.
Qed.

(** [case "media"], lines 230-240. *)
Lemma connection_on_message_media
    (r : ReadyState) (s : Session) (m : Twilio.Msg) (md : Twilio.Media) :
  Twilio.event m = "media" ->
  Twilio.media m = Some md ->
  connection_on_message r (Some m) s =
    (Normal tt,
     {| streamSid := streamSid s;
        latestMediaTimestamp := Twilio.timestamp md;
        lastAssistantItem := lastAssistantItem s;
        markQueue := markQueue s;
        responseStartTimestampTwilio := responseStartTimestampTwilio s |},
     if is_OPEN r then [OpenAiSend (AudioAppend (Twilio.payload md))] else []).
Proof.
  intros Hev Hmd. destruct m as [ev ms mm]; cbn in Hev, Hmd; subst ev mm.
  destruct r; reflexivity.
Qed.

Lemma connection_on_message_media_absent
    (r : ReadyState) (s : Session) (m : Twilio.Msg) :
  Twilio.event m = "media" ->
  Twilio.media m = None ->
  connection_on_message r (Some m) s = (Normal tt, s, []).
Proof.
  intros Hev Hmd. destruct m as [ev ms mm]; cbn in Hev, Hmd; subst ev mm.
  reflexivity.
Qed.

(** [case "mark"], lines 241-243. *)
Lemma connection_on_message_mark
    (r : ReadyState) (s : Session) (m : Twilio.Msg) :
  Twilio.event m = "mark" ->
  connection_on_message r (Some m) s =
    (Normal tt,
     {| streamSid := streamSid s;
        latestMediaTimestamp := latestMediaTimestamp s;
        lastAssistantItem := lastAssistantItem s;
        markQueue := tl (markQueue s);
        responseStartTimestampTwilio := responseStartTimestampTwilio s |},
     []).
Proof.
  intros Hev. destruct m as [ev ms mm]; cbn in Hev; subst ev.
  destruct s as [sid latest item queue started].
  destruct queue; reflexivity.
Qed.

(** [default:], line 244. *)
Lemma connection_on_message_other
    (r : ReadyState) (s : Session) (m : Twilio.Msg) :
  Twilio.event m <> "start" ->
  Twilio.event m <> "media" ->
  Twilio.event m <> "mark" ->
  connection_on_message r (Some m) s = (Normal tt, s, []).
Proof.
  intros H1 H2 H3.
  apply String.eqb_neq in H1, H2, H3.
  unfold_handler; cbn. rewrite H1, H2, H3. reflexivity.
Qed.

(** Running a sequence: the state threads through, the calls concatenate. *)
Lemma dispatch_normal (e : Event) (s : Session) :
  fst (fst (dispatch e s)) = Normal tt.
Proof.
  destruct e; cbn; unfold_handler;
    repeat match goal with
           | |- context [match ?x with _ => _ end] => destruct x
           end; reflexivity.
Qed.

Lemma run_cons (e : Event) (es : list Event) (s : Session) :
  run (e :: es) s =
    (fst (fst (run es (state_after (dispatch e) s))),
     state_after (run es) (state_after (dispatch e) s),
     emitted (dispatch e) s ++ emitted (run es) (state_after (dispatch e) s)).
Proof.
  cbn [run]. unfold bind, state_after, emitted.
  pose proof (dispatch_normal e s) as Hn.
  destruct (dispatch e s) as [[c s1] out1]; cbn in Hn; subst c; cbn.
  destruct (run es s1) as [[c2 s2] out2]; reflexivity.
Qed.

Lemma state_after_cons (e : Event) (es : list Event) (s : Session) :
  state_after (run (e :: es)) s =
    state_after (run es) (state_after (dispatch e) s).
Proof. unfold state_after at 1. rewrite run_cons. reflexivity. Qed.

Lemma emitted_cons (e : Event) (es : list Event) (s : Session) :
  emitted (run (e :: es)) s =
    emitted (dispatch e) s ++ emitted (run es) (state_after (dispatch e) s).
Proof. unfold emitted at 1. rewrite run_cons. reflexivity. Qed.


Lemma emitted_app (es1 es2 : list Event) (s : Session) :
  emitted (run (es1 ++ es2)) s =
    emitted (run es1) s ++ emitted (run es2) (state_after (run es1) s).
Proof.
  revert s. induction es1 as [|e es1 IH]; intros s; [reflexivity|].
  rewrite <- app_comm_cons, !emitted_cons, state_after_cons, IH.
  apply app_assoc.
Qed.

(** What the telephony callback leaves alone: it never assigns
    [lastAssistantItem], never sends on the telephony socket and never
    closes a socket. *)
Lemma connection_on_message_cases
    (r : ReadyState) (raw : option Twilio.Msg) (s : Session) :
  connection_on_message r raw s = (Normal tt, s, [])
  \/ (exists m st,
        raw = Some m /\ Twilio.event m = "start" /\
        connection_on_message r raw s =
          (Normal tt,
           {| streamSid := Some (Twilio.streamSid st);
              latestMediaTimestamp := 0;
              lastAssistantItem := lastAssistantItem s;
              markQueue := markQueue s;
              responseStartTimestampTwilio := None |},
           []))
  \/ (exists md,
        connection_on_message r raw s =
          (Normal tt,
           {| streamSid := streamSid s;
              latestMediaTimestamp := Twilio.timestamp md;
              lastAssistantItem := lastAssistantItem s;
              markQueue := markQueue s;
              responseStartTimestampTwilio := responseStartTimestampTwilio s |},
           if is_OPEN r then [OpenAiSend (AudioAppend (Twilio.payload md))]
           else []))
  \/ connection_on_message r raw s =
       (Normal tt,
        {| streamSid := streamSid s;
           latestMediaTimestamp := latestMediaTimestamp s;
           lastAssistantItem := lastAssistantItem s;
           markQueue := tl (markQueue s);
           responseStartTimestampTwilio := responseStartTimestampTwilio s |},
        []).
Proof.
  destruct raw as [m|]; [|left; reflexivity].
  destruct (String.eqb (Twilio.event m) "start") eqn:E1.
  { apply String.eqb_eq in E1.
    destruct (Twilio.start m) as [st|] eqn:Hst.
    - right; left. exists m, st. split; [reflexivity|]. split; [exact E1|].
      apply connection_on_message_start; assumption.
    - left. apply connection_on_message_start_absent; assumption. }
  destruct (String.eqb (Twilio.event m) "media") eqn:E2.
  { apply String.eqb_eq in E2.
    destruct (Twilio.media m) as [md|] eqn:Hmd.
    - right; right; left. exists md.
      apply connection_on_message_media; assumption.
    - left. apply connection_on_message_media_absent; assumption. }
  destruct (String.eqb (Twilio.event m) "mark") eqn:E3.
  { apply String.eqb_eq in E3.
    right; right; right. apply connection_on_message_mark; assumption. }
  apply String.eqb_neq in E1, E2, E3.
  left. apply connection_on_message_other; assumption.
Qed.

Lemma connection_on_message_frame
    (r : ReadyState) (raw : option Twilio.Msg) (s : Session) :
  lastAssistantItem (snd (fst (connection_on_message r raw s))) =
    lastAssistantItem s.
Proof.
  destruct (connection_on_message_cases r raw s)
    as [H | [(m0 & st & _ & _ & H) | [[md H] | H]]]; rewrite H; reflexivity.
Qed.

Lemma connection_on_message_sends_only_append
    (r : ReadyState) (raw : option Twilio.Msg) (s : Session) (e : Effect) :
  In e (emitted (connection_on_message r raw) s) ->
  is_OPEN r = true /\ exists audio, e = OpenAiSend (AudioAppend audio).
Proof.
  unfold emitted.
  destruct (connection_on_message_cases r raw s)
    as [H | [(m0 & st & _ & _ & H) | [[md H] | H]]]; rewrite H; cbn; try tauto.
  destruct (is_OPEN r); cbn; [|tauto].
  intros [<- | []]. split; [reflexivity|]. eexists; reflexivity.
Qed.

(** The speech-AI callback by cases. *)
Lemma openAiWs_on_message_cases (data : option OpenAi.Response) (s : Session) :
  openAiWs_on_message data s = (Normal tt, s, [])
  \/ (exists r d,
        data = Some r /\
        OpenAi.type r = "response.audio.delta" /\
        OpenAi.delta r = Some d /\ Js.truthy_string d = true)
  \/ (exists r t,
        data = Some r /\
        OpenAi.type r = "input_audio_buffer.speech_started" /\
        markQueue s <> [] /\ responseStartTimestampTwilio s = Some t).
Proof.
  destruct data as [r|]; [|left; reflexivity].
  destruct (is_audio_delta r) eqn:Hd.
  { destruct (is_audio_delta_inv r Hd) as (d & Hty & Hdl & Ht).
    right; left. exists r, d. auto. }
  destruct (String.eqb (OpenAi.type r)
              "input_audio_buffer.speech_started") eqn:Hty.
  - apply String.eqb_eq in Hty.
    destruct (responseStartTimestampTwilio s) as [t|] eqn:Ht.
    + destruct (markQueue s) as [|q qs] eqn:Hq.
      * left. apply openAiWs_on_message_no_barge_in; auto.
      * right; right. exists r, t. repeat split; auto. discriminate.
    + left. apply openAiWs_on_message_no_barge_in; auto.
  - apply String.eqb_neq in Hty.
    left. apply openAiWs_on_message_other; auto.
Qed.

(** The bridge stores an item identifier only when it is truthy, so a
    stored identifier is never the empty string. *)
Definition item_well_formed (s : Session) : Prop :=
  lastAssistantItem s <> Some "".

Lemma dispatch_item_well_formed (e : Event) (s : Session) :
  item_well_formed s -> item_well_formed (state_after (dispatch e) s).
Proof.
  unfold item_well_formed, state_after. intros Hs.
  destruct e as [r [m|] | r | [resp|] | | ]; cbn [dispatch]; try exact Hs.
  - rewrite (connection_on_message_frame r (Some m) s). exact Hs.
  - destruct r; exact Hs.
  - destruct (openAiWs_on_message_cases (Some resp) s)
      as [H | [(r0 & d & Hr & Hty & Hdl & Ht) | (r0 & t & Hr & Hty & Hq & Ht)]].
    + rewrite H. exact Hs.
    + injection Hr as <-.
      rewrite (openAiWs_on_message_delta s resp d Hty Hdl Ht); cbn.
      destruct (OpenAi.item_id resp) as [[|c i]|]; cbn; try exact Hs.
      discriminate.
    + injection Hr as <-.
      rewrite (openAiWs_on_message_barge_in s resp t Hty Hq Ht); cbn.
      discriminate.
Qed.

Lemma reachable_item_well_formed (s : Session) :
  reachable s -> item_well_formed s.
Proof.
  intros [es <-].
  assert (H : forall s0, item_well_formed s0 ->
                         item_well_formed (state_after (run es) s0)).
  { induction es as [|e es IH]; intros s0 H0; [exact H0|].
    rewrite state_after_cons. apply IH, dispatch_item_well_formed, H0. }
  apply H. unfold item_well_formed. discriminate.
Qed.

(** ** Barge-in *)

(** C1: a speech-started event that arrives while [markQueue] is non-empty
    and [responseStartTimestampTwilio] is not null makes the handler send,
    when [lastAssistantItem] is set, a [conversation.item.truncate] for that
    item with [content_index] 0 and [audio_end_ms] equal to
    [latestMediaTimestamp - responseStartTimestampTwilio] on the speech-AI
    socket, then a [clear] carrying [streamSid] on the telephony socket, and
    leaves [markQueue] empty and [lastAssistantItem] and
    [responseStartTimestampTwilio] null, the other two variables as they
    were.  (A stored item identifier is never the empty string, see
    [reachable_item_well_formed].) *)
Theorem C1_barge_in_truncates_clears_and_resets
    (s : Session) (r : OpenAi.Response) (t : Z) :
  OpenAi.type r = "input_audio_buffer.speech_started" ->
  markQueue s <> [] ->
  responseStartTimestampTwilio s = Some t ->
  emitted (openAiWs_on_message (Some r)) s =
    match lastAssistantItem s with
    | Some id =>
        if Js.truthy_string id
        then [OpenAiSend (ItemTruncate id 0 (latestMediaTimestamp s - t))]
        else []
    | None => []
    end ++ [ConnectionSend (ClearFrame (streamSid s))]
  /\ state_after (openAiWs_on_message (Some r)) s =
       {| streamSid := streamSid s;
          latestMediaTimestamp := latestMediaTimestamp s;
          lastAssistantItem := None;
          markQueue := [];
          responseStartTimestampTwilio := None |}.
Proof.
  intros Hty Hq Ht. unfold emitted, state_after.
  rewrite (openAiWs_on_message_barge_in s r t Hty Hq Ht). split; reflexivity.
Qed.

(** The state of scenario C: response started at 500, clock at 1200. *)
Definition speaking_at_1200 : Session :=
  {| streamSid := Some "SS1";
     latestMediaTimestamp := 1200;
     lastAssistantItem := Some "it1";
     markQueue := ["responsePart"];
     responseStartTimestampTwilio := Some 500 |}.

Lemma C1_witness_audio_end_ms_700 :
  emitted (openAiWs_on_message (Some OpenAi.speech_started)) speaking_at_1200 =
    [ OpenAiSend (ItemTruncate "it1" 0 700);
      ConnectionSend (ClearFrame (Some "SS1")) ]
  /\ state_after (openAiWs_on_message (Some OpenAi.speech_started))
       speaking_at_1200 =
       {| streamSid := Some "SS1";
          latestMediaTimestamp := 1200;
          lastAssistantItem := None;
          markQueue := [];
          responseStartTimestampTwilio := None |}.
Proof.
  apply (C1_barge_in_truncates_clears_and_resets
           speaking_at_1200 OpenAi.speech_started 500).
  - reflexivity.
  - discriminate.
  - reflexivity.
Defined.

(** C2: a speech-started event makes the handler send something only if
    [markQueue] is non-empty and [responseStartTimestampTwilio] is not null;
    when [markQueue] is empty or [responseStartTimestampTwilio] is null the
    handler changes no variable and sends nothing, and so does any number of
    such events in a row. *)
Theorem C2_barge_in_guard (s : Session) (r : OpenAi.Response) :
  OpenAi.type r = "input_audio_buffer.speech_started" ->
  (emitted (openAiWs_on_message (Some r)) s <> [] ->
     markQueue s <> [] /\ responseStartTimestampTwilio s <> None)
  /\ (markQueue s = [] \/ responseStartTimestampTwilio s = None ->
        openAiWs_on_message (Some r) s = (Normal tt, s, [])
        /\ forall n : nat,
             run (repeat (OpenAiMessage (Some r)) n) s = (Normal tt, s, [])).
Proof.
  intros Hty. split.
  - intros Hsent.
    destruct (markQueue s) as [|q qs] eqn:Hq.
    + exfalso. apply Hsent. unfold emitted.
      rewrite openAiWs_on_message_no_barge_in; auto.
    + destruct (responseStartTimestampTwilio s) as [t|] eqn:Ht.
      * split; discriminate.
      * exfalso. apply Hsent. unfold emitted.
        rewrite openAiWs_on_message_no_barge_in; auto.
  - intros Hidle.
    assert (Hone : openAiWs_on_message (Some r) s = (Normal tt, s, []))
      by (apply openAiWs_on_message_no_barge_in; assumption).
    split; [exact Hone|].
    induction n as [|n IH]; [reflexivity|].
    cbn [repeat run dispatch]. unfold bind. rewrite Hone, IH. reflexivity.
Qed.

Lemma C2_witness_idle_session :
  openAiWs_on_message (Some OpenAi.speech_started) initial =
    (Normal tt, initial, [])
  /\ forall n : nat,
       run (repeat (OpenAiMessage (Some OpenAi.speech_started)) n) initial =
         (Normal tt, initial, []).
Proof.
  apply (C2_barge_in_guard initial OpenAi.speech_started).
  - reflexivity.
  - left. reflexivity.
Defined.

(** ** Relaying audio deltas *)

(** C3, as the code has it: an event of type [response.audio.delta] with a
    non-empty [delta] makes the handler send exactly one [media] frame on
    the telephony socket; when [streamSid] is set it then sends exactly one
    [mark] frame and appends exactly one entry to [markQueue]; when
    [streamSid] is not set (line 179) it sends no [mark] frame and
    [markQueue] stays as it was. *)
Theorem C3_delta_sends_media_then_mark_when_streamSid
    (s : Session) (r : OpenAi.Response) (d : string) :
  OpenAi.type r = "response.audio.delta" ->
  OpenAi.delta r = Some d ->
  d <> "" ->
  emitted (openAiWs_on_message (Some r)) s =
    ConnectionSend (MediaFrame (streamSid s) d) ::
      (if Js.truthy_ostring (streamSid s)
       then [ConnectionSend (MarkFrame (streamSid s) "responsePart")]
       else [])
  /\ markQueue (state_after (openAiWs_on_message (Some r)) s) =
       markQueue s ++
         (if Js.truthy_ostring (streamSid s) then ["responsePart"] else []).
Proof.
  intros Hty Hdl Hd. unfold emitted, state_after.
  rewrite (openAiWs_on_message_delta s r d Hty Hdl (truthy_string_true d Hd)).
  cbn. split; [reflexivity|].
  destruct (Js.truthy_ostring (streamSid s)); [reflexivity|].
  symmetry. apply app_nil_r.
Qed.

(** The state after scenario A and a first media frame at 500 ms. *)
Definition started_at_500 : Session :=
  {| streamSid := Some "SS1";
     latestMediaTimestamp := 500;
     lastAssistantItem := None;
     markQueue := [];
     responseStartTimestampTwilio := None |}.

Lemma C3_witness_stream_started :
  emitted (openAiWs_on_message
             (Some (OpenAi.audio_delta "BBBB" (Some "it1")))) started_at_500 =
    [ ConnectionSend (MediaFrame (Some "SS1") "BBBB");
      ConnectionSend (MarkFrame (Some "SS1") "responsePart") ]
  /\ markQueue (state_after
                  (openAiWs_on_message
                     (Some (OpenAi.audio_delta "BBBB" (Some "it1"))))
                  started_at_500) =
       ["responsePart"].
Proof.
  apply (C3_delta_sends_media_then_mark_when_streamSid
           started_at_500 (OpenAi.audio_delta "BBBB" (Some "it1")) "BBBB").
  - reflexivity.
  - reflexivity.
  - discriminate.
Defined.

(** C3 as stated fails before the telephony [start] event: with
    [streamSid] still null the delta is relayed in a [media] frame, but no
    [mark] frame is sent and nothing is pushed onto [markQueue]. *)
Lemma C3_counterexample_delta_before_start :
  let h := openAiWs_on_message (Some (OpenAi.audio_delta "BBBB" (Some "it1"))) in
  emitted h initial = [ConnectionSend (MediaFrame None "BBBB")]
  /\ (forall sid name,
        ~ In (ConnectionSend (MarkFrame sid name)) (emitted h initial))
  /\ markQueue (state_after h initial) = [].
Proof.
  cbv zeta. split; [reflexivity|]. split; [|reflexivity].
  intros sid name [H | []]. discriminate H.
Qed.

(** The capture of the response start, lines 168-174. *)

(** With no response in flight the delta captures the clock. *)
Lemma delta_captures_start_when_null
    (s : Session) (r : OpenAi.Response) (d : string) :
  OpenAi.type r = "response.audio.delta" ->
  OpenAi.delta r = Some d ->
  d <> "" ->
  responseStartTimestampTwilio s = None ->
  responseStartTimestampTwilio (state_after (openAiWs_on_message (Some r)) s) =
    Some (latestMediaTimestamp s).
Proof.
  intros Hty Hdl Hd Hs. unfold state_after.
  rewrite (openAiWs_on_message_delta s r d Hty Hdl (truthy_string_true d Hd)).
  cbn. rewrite Hs. reflexivity.
Qed.

(** A captured start other than 0 is kept by later deltas. *)
Lemma delta_keeps_nonzero_start
    (s : Session) (r : OpenAi.Response) (d : string) (t : Z) :
  OpenAi.type r = "response.audio.delta" ->
  OpenAi.delta r = Some d ->
  d <> "" ->
  responseStartTimestampTwilio s = Some t ->
  t <> 0 ->
  responseStartTimestampTwilio (state_after (openAiWs_on_message (Some r)) s) =
    Some t.
Proof.
  intros Hty Hdl Hd Hs Ht. unfold state_after.
  rewrite (openAiWs_on_message_delta s r d Hty Hdl (truthy_string_true d Hd)).
  cbn. rewrite Hs. unfold Js.truthy_onumber.
  apply Z.eqb_neq in Ht. rewrite Ht. reflexivity.
Qed.

(** A captured start of 0 is falsy for the test of line 168: the next delta
    captures the clock again. *)
Lemma delta_recaptures_zero_start
    (s : Session) (r : OpenAi.Response) (d : string) :
  OpenAi.type r = "response.audio.delta" ->
  OpenAi.delta r = Some d ->
  d <> "" ->
  responseStartTimestampTwilio s = Some 0 ->
  responseStartTimestampTwilio (state_after (openAiWs_on_message (Some r)) s) =
    Some (latestMediaTimestamp s).
Proof.
  intros Hty Hdl Hd Hs. unfold state_after.
  rewrite (openAiWs_on_message_delta s r d Hty Hdl (truthy_string_true d Hd)).
  cbn. rewrite Hs. reflexivity.
Qed.

(** Scenario B of the specification. *)
Example scenario_B :
  state_after
    (openAiWs_on_message (Some (OpenAi.audio_delta "BBBB" (Some "it1"))))
    started_at_500 =
    {| streamSid := Some "SS1";
       latestMediaTimestamp := 500;
       lastAssistantItem := Some "it1";
       markQueue := ["responsePart"];
       responseStartTimestampTwilio := Some 500 |}.
Proof. reflexivity. Qed.

(** C4 fails on the code when the response starts at clock 0: after
    [start], a first delta captures [responseStartTimestampTwilio = 0]; a
    media frame moves the clock to 20; the second delta of the same turn
    then moves [responseStartTimestampTwilio] to 20, because line 168 tests
    truthiness where line 193 tests [!= null]. *)
Theorem C4_zero_start_is_overwritten_by_next_delta :
  let first :=
    [ ConnectionMessage OPEN (Some (Twilio.start_msg "SS1"));
      OpenAiMessage (Some (OpenAi.audio_delta "BBBB" (Some "it1"))) ] in
  let next :=
    [ ConnectionMessage OPEN (Some (Twilio.media_msg 20 "AAAA"));
      OpenAiMessage (Some (OpenAi.audio_delta "CCCC" (Some "it1"))) ] in
  responseStartTimestampTwilio (state_after (run first) initial) = Some 0
  /\ markQueue (state_after (run first) initial) = ["responsePart"]
  /\ responseStartTimestampTwilio (state_after (run (first ++ next)) initial) =
       Some 20.
Proof. cbv zeta. repeat split. Qed.

(** ** Mark acknowledgments *)

(** C9: a telephony [mark] frame removes the first entry of [markQueue]
    when there is one and is a no-op on the empty queue; the [try] block
    completes without throwing in both cases; after [n] such frames the
    queue is the old one without its first [n] entries, so its length is
    [max 0 (length - n)]. *)
Theorem C9_mark_pops_one_or_nothing
    (r : ReadyState) (s : Session) (m : Twilio.Msg) :
  Twilio.event m = "mark" ->
  fst (fst (connection_message_body r (Some m) s)) = Normal tt
  /\ emitted (connection_on_message r (Some m)) s = []
  /\ markQueue (state_after (connection_on_message r (Some m)) s) =
       tl (markQueue s)
  /\ List.length (markQueue (state_after (connection_on_message r (Some m)) s)) =
       pred (List.length (markQueue s))
  /\ (markQueue s = [] ->
        connection_on_message r (Some m) s = (Normal tt, s, []))
  /\ forall n : nat,
       let s' :=
         state_after (run (repeat (ConnectionMessage r (Some m)) n)) s in
       markQueue s' = skipn n (markQueue s)
       /\ Z.of_nat (List.length (markQueue s')) =
            Z.max 0 (Z.of_nat (List.length (markQueue s)) - Z.of_nat n).
Proof.
  intros Hev.
  assert (Hq : forall s0,
             markQueue (state_after (connection_on_message r (Some m)) s0) =
               tl (markQueue s0)).
  { intros s0. unfold state_after.
    rewrite (connection_on_message_mark r s0 m Hev). reflexivity. }
  split.
  { destruct m as [ev ms mm]; cbn in Hev; subst ev.
    destruct s as [sid latest item queue started].
    destruct queue; reflexivity. }
  split.
  { unfold emitted. rewrite (connection_on_message_mark r s m Hev).
    reflexivity. }
  split; [apply Hq|].
  split.
  { rewrite Hq. destruct (markQueue s); reflexivity. }
  split.
  { intros Hempty. rewrite (connection_on_message_mark r s m Hev).
    destruct s as [sid latest item queue started]; cbn in Hempty; subst queue.
    reflexivity. }
  intros n. cbv zeta.
  assert (Hn : markQueue
                 (state_after (run (repeat (ConnectionMessage r (Some m)) n)) s)
               = skipn n (markQueue s)).
  { revert s. induction n as [|n IH]; intros s; [reflexivity|].
    cbn [repeat]. rewrite state_after_cons. cbn [dispatch].
    rewrite IH, Hq. destruct (markQueue s); [|reflexivity].
    cbn. destruct n; reflexivity. }
  split; [exact Hn|].
  rewrite Hn, length_skipn. lia.
Qed.

(** Scenario D: one entry queued, two acknowledgments. *)
Lemma C9_witness_scenario_D :
  let ack := ConnectionMessage OPEN (Some Twilio.mark_msg) in
  markQueue (state_after (run [ack]) speaking_at_1200) = []
  /\ markQueue (state_after (run [ack; ack]) speaking_at_1200) = [].
Proof.
  pose proof (C9_mark_pops_one_or_nothing OPEN speaking_at_1200
                Twilio.mark_msg eq_refl) as (_ & _ & _ & _ & _ & Hn).
  split.
  - exact (proj1 (Hn 1%nat)).
  - exact (proj1 (Hn 2%nat)).
Defined.

(** ** The [start] frame *)

(** C10: a telephony [start] frame assigns [streamSid], sets
    [latestMediaTimestamp] to 0 and [responseStartTimestampTwilio] to null,
    and sends nothing; [markQueue] and [lastAssistantItem] keep their
    values, so a [start] that arrives while a response is playing leaves
    the queued marks and the assistant item with the timing cleared. *)
Theorem C10_start_resets_timing_only
    (r : ReadyState) (s : Session) (m : Twilio.Msg) (st : Twilio.Start) :
  Twilio.event m = "start" ->
  Twilio.start m = Some st ->
  connection_on_message r (Some m) s =
    (Normal tt,
     {| streamSid := Some (Twilio.streamSid st);
        latestMediaTimestamp := 0;
        lastAssistantItem := lastAssistantItem s;
        markQueue := markQueue s;
        responseStartTimestampTwilio := None |},
     []).
Proof. apply connection_on_message_start. Qed.

Lemma C10_witness_start_mid_call :
  connection_on_message OPEN (Some (Twilio.start_msg "SS2")) speaking_at_1200 =
    (Normal tt,
     {| streamSid := Some "SS2";
        latestMediaTimestamp := 0;
        lastAssistantItem := Some "it1";
        markQueue := ["responsePart"];
        responseStartTimestampTwilio := None |},
     []).
Proof.
  apply (C10_start_resets_timing_only OPEN speaking_at_1200
           (Twilio.start_msg "SS2") {| Twilio.streamSid := "SS2" |}).
  - reflexivity.
  - reflexivity.
Defined.

(** ** The session clock *)

(** A run of telephony [media] frames, each with the [readyState] of the
    speech-AI socket observed when it arrives. *)
Definition media_events (frames : list (ReadyState * Twilio.Media)) : list Event :=
  map (fun f => media_event (fst f) (snd f)) frames.

Definition timestamps (frames : list (ReadyState * Twilio.Media)) : list Z :=
  map (fun f => Twilio.timestamp (snd f)) frames.

Lemma state_after_media_event (r : ReadyState) (md : Twilio.Media) (s : Session) :
  latestMediaTimestamp (state_after (dispatch (media_event r md)) s) =
    Twilio.timestamp md.
Proof.
  unfold state_after, media_event; cbn [dispatch].
  rewrite (connection_on_message_media r s
             {| Twilio.event := "media"; Twilio.start := None;
                Twilio.media := Some md |} md eq_refl eq_refl).
  reflexivity.
Qed.

Lemma last_cons_default {A : Type} (l : list A) (a d : A) :
  last (a :: l) d = last l a.
Proof.
  revert a d. induction l as [|b l IH]; intros a d; [reflexivity|].
  change (last (a :: b :: l) d) with (last (b :: l) d).
  rewrite (IH b d), (IH b a). reflexivity.
Qed.

Lemma state_after_run_last (es : list Event) (s : Session) :
  state_after (run es) s = last (trace es s) s.
Proof.
  revert s. induction es as [|e es IH]; intros s; [reflexivity|].
  rewrite state_after_cons, IH. cbn [trace].
  symmetry. apply last_cons_default.
Qed.

Lemma trace_media_events (frames : list (ReadyState * Twilio.Media)) (s : Session) :
  map latestMediaTimestamp (trace (media_events frames) s) = timestamps frames.
Proof.
  revert s. induction frames as [|[r md] frames IH]; intros s; [reflexivity|].
  cbn [media_events timestamps map trace fst snd].
  rewrite state_after_media_event. f_equal. apply IH.
Qed.

(** C5, as the code has it: over any sequence of telephony [media] frames
    the values [latestMediaTimestamp] takes after each frame are exactly the
    timestamps received, in order, so after each frame it equals the
    timestamp of the last frame received; the handler stores the timestamp
    without comparing it, so the clock is non-decreasing along the sequence
    exactly when the received timestamps are. *)
Theorem C5_clock_follows_received_timestamps
    (frames : list (ReadyState * Twilio.Media)) (s : Session) :
  map latestMediaTimestamp (trace (media_events frames) s) = timestamps frames
  /\ latestMediaTimestamp (state_after (run (media_events frames)) s) =
       last (timestamps frames) (latestMediaTimestamp s)
  /\ (Sorted Z.le
        (latestMediaTimestamp s ::
           map latestMediaTimestamp (trace (media_events frames) s))
      <-> Sorted Z.le (latestMediaTimestamp s :: timestamps frames)).
Proof.
  pose proof (trace_media_events frames s) as Htr.
  split; [exact Htr|]. split.
  - rewrite state_after_run_last, <- Htr.
    generalize (trace (media_events frames) s) as l.
    generalize s as s0.
    intros s0 l. revert s0.
    induction l as [|a l IH]; intros s0; [reflexivity|].
    cbn [map]. rewrite !last_cons_default. apply IH.
  - rewrite Htr. reflexivity.
Qed.

(** C5 as stated fails: a frame stamped 500 after a frame stamped 1200
    moves the clock back from 1200 to 500. *)
Lemma C5_counterexample_clock_moves_back :
  let frames := [ (OPEN, {| Twilio.timestamp := 1200; Twilio.payload := "AAAA" |});
                  (OPEN, {| Twilio.timestamp := 500; Twilio.payload := "CCCC" |}) ] in
  map latestMediaTimestamp (trace (media_events frames) initial) = [1200; 500]
  /\ ~ Sorted Z.le (map latestMediaTimestamp (trace (media_events frames) initial)).
Proof.
  cbv zeta. split; [reflexivity|].
  intros H. change (Sorted Z.le [1200; 500]) in H.
  inversion H as [|a l Hs Hhd]; subst.
  inversion Hhd as [|b l' Hle]; subst. lia.
Qed.

(** ** The response start and the assistant item *)


Lemma is_audio_delta_intro (r : OpenAi.Response) (d : string) :
  OpenAi.type r = "response.audio.delta" ->
  OpenAi.delta r = Some d ->
  Js.truthy_string d = true ->
  is_audio_delta r = true.
Proof.
  intros Hty Hdl Ht. unfold is_audio_delta. rewrite Hdl, Hty, Ht. reflexivity.
Qed.

Lemma state_after_connection_on_close (r : ReadyState) (s : Session) :
  state_after (connection_on_close r) s = s.
Proof. destruct r; reflexivity. Qed.











(** Scenarios A, B and C in a row, and D appended. *)
Definition scenario_events : list Event :=
  [ ConnectionMessage OPEN (Some (Twilio.start_msg "SS1"));
    ConnectionMessage OPEN (Some (Twilio.media_msg 500 "AAAA"));
    OpenAiMessage (Some (OpenAi.audio_delta "BBBB" (Some "it1")));
    ConnectionMessage OPEN (Some Twilio.mark_msg);
    OpenAiMessage (Some (OpenAi.audio_delta "DDDD" (Some "it1")));
    ConnectionMessage OPEN (Some (Twilio.media_msg 1200 "CCCC"));
    OpenAiMessage (Some OpenAi.speech_started) ].



(** The other direction fails on an audio delta without [item_id]: line 176
    skips the assignment of [lastAssistantItem]. *)
Example anonymous_delta_unpairs :
  let s := state_after
             (run [OpenAiMessage (Some (OpenAi.audio_delta "BBBB" None))])
             initial in
  responseStartTimestampTwilio s = Some 0 /\ lastAssistantItem s = None.
Proof. cbv zeta. split; reflexivity. Qed.

(** ** Stream identifiers on outbound telephony frames *)

(** A frame sent on the telephony socket carries the value [streamSid] has
    when the callback runs. *)
Lemma dispatch_frame_carries_streamSid
    (e : Event) (s : Session) (f : TwilioFrame) :
  In (ConnectionSend f) (emitted (dispatch e) s) ->
  frame_streamSid f = streamSid s.
Proof.
  destruct e as [r raw | r | data | | ]; cbn [dispatch].
  - intros Hin.
    destruct (connection_on_message_sends_only_append r raw s _ Hin)
      as [_ [audio Hf]]. discriminate Hf.
  - destruct r; cbn; intros H; try tauto.
    destruct H as [H | []]. discriminate H.
  - unfold emitted.
    destruct (openAiWs_on_message_cases data s)
      as [H | [(r0 & d & Hr & Hty & Hdl & Ht) | (r0 & t & Hr & Hty & Hq & Ht)]].
    + rewrite H. cbn. tauto.
    + subst data. rewrite (openAiWs_on_message_delta s r0 d Hty Hdl Ht). cbn.
      intros [H | H]; [injection H as <-; reflexivity|].
      destruct (Js.truthy_ostring (streamSid s)); cbn in H; [|tauto].
      destruct H as [H | []]. injection H as <-. reflexivity.
    + subst data. rewrite (openAiWs_on_message_barge_in s r0 t Hty Hq Ht). cbn.
      intros H. apply in_app_or in H. destruct H as [H | H].
      * destruct (lastAssistantItem s) as [id|]; [|destruct H].
        destruct (Js.truthy_string id); [|destruct H].
        destruct H as [H | []]. discriminate H.
      * destruct H as [H | []]. injection H as <-. reflexivity.
  - cbn. tauto.
  - cbn. tauto.
Qed.

(** Only [case "start"] assigns [streamSid]. *)
Lemma dispatch_keeps_streamSid (e : Event) (s : Session) :
  is_start_event e = false ->
  streamSid (state_after (dispatch e) s) = streamSid s.
Proof.
  intros Hst.
  destruct e as [r raw | r | data | | ]; cbn [dispatch]; try reflexivity.
  - unfold state_after.
    destruct (connection_on_message_cases r raw s)
      as [H | [(m0 & st & Hraw & Hev & H) | [[md H] | H]]];
      try (rewrite H; reflexivity).
    subst raw. cbn in Hst. rewrite Hev in Hst. discriminate.
  - rewrite state_after_connection_on_close. reflexivity.
  - unfold state_after.
    destruct (openAiWs_on_message_cases data s)
      as [H | [(r0 & d & Hr & Hty & Hdl & Ht) | (r0 & t & Hr & Hty & Hq & Ht)]].
    + rewrite H. reflexivity.
    + subst data. rewrite (openAiWs_on_message_delta s r0 d Hty Hdl Ht).
      reflexivity.
    + subst data. rewrite (openAiWs_on_message_barge_in s r0 t Hty Hq Ht).
      reflexivity.
Qed.

Lemma run_frames_carry_streamSid
    (es : list Event) (s : Session) (f : TwilioFrame) :
  forallb (fun e => negb (is_start_event e)) es = true ->
  In (ConnectionSend f) (emitted (run es) s) ->
  frame_streamSid f = streamSid s.
Proof.
  revert s. induction es as [|e es IH]; intros s Hes Hin; [destruct Hin|].
  cbn [forallb] in Hes. apply andb_true_iff in Hes. destruct Hes as [He Hes].
  apply negb_true_iff in He.
  rewrite emitted_cons in Hin. apply in_app_or in Hin.
  destruct Hin as [Hin | Hin].
  - apply (dispatch_frame_carries_streamSid e s f Hin).
  - rewrite <- (dispatch_keeps_streamSid e s He). apply IH; assumption.
Qed.

(** C7, as the code has it: after a telephony [start] frame with stream
    identifier [sid] is processed, [streamSid] is [sid], and every frame
    sent on the telephony socket from then on, as long as no further [start]
    frame is processed, carries [sid]; in general, every frame sent on the
    telephony socket carries the value [streamSid] has when it is sent. *)
Theorem C7_frames_carry_streamSid
    (r : ReadyState) (s : Session) (m : Twilio.Msg) (st : Twilio.Start)
    (es : list Event) :
  Twilio.event m = "start" ->
  Twilio.start m = Some st ->
  forallb (fun e => negb (is_start_event e)) es = true ->
  let s1 := state_after (connection_on_message r (Some m)) s in
  streamSid s1 = Some (Twilio.streamSid st)
  /\ (forall f, In (ConnectionSend f) (emitted (run es) s1) ->
                frame_streamSid f = Some (Twilio.streamSid st))
  /\ (forall e s0 f, In (ConnectionSend f) (emitted (dispatch e) s0) ->
                     frame_streamSid f = streamSid s0).
Proof.
  intros Hev Hst Hes s1.
  assert (H1 : streamSid s1 = Some (Twilio.streamSid st)).
  { unfold s1, state_after.
    rewrite (connection_on_message_start r s m st Hev Hst). reflexivity. }
  split; [exact H1|]. split.
  - intros f Hin. rewrite <- H1.
    apply (run_frames_carry_streamSid es s1 f Hes Hin).
  - apply dispatch_frame_carries_streamSid.
Qed.

Lemma C7_witness_scenario_A :
  let s1 := state_after
              (connection_on_message OPEN (Some (Twilio.start_msg "SS1")))
              initial in
  streamSid s1 = Some "SS1"
  /\ (forall f, In (ConnectionSend f) (emitted (run (skipn 1 scenario_events)) s1) ->
                frame_streamSid f = Some "SS1")
  /\ (forall e s0 f, In (ConnectionSend f) (emitted (dispatch e) s0) ->
                     frame_streamSid f = streamSid s0).
Proof.
  apply (C7_frames_carry_streamSid OPEN initial (Twilio.start_msg "SS1")
           {| Twilio.streamSid := "SS1" |} (skipn 1 scenario_events)).
  - reflexivity.
  - reflexivity.
  - reflexivity.
Defined.

(** C7 as stated fails: nothing stops a second [start] frame from
    assigning another identifier, and the frames sent after it carry the
    new one. *)
Lemma C7_counterexample_second_start :
  let s1 := state_after
              (connection_on_message OPEN (Some (Twilio.start_msg "SS1")))
              initial in
  let es := [ ConnectionMessage OPEN (Some (Twilio.start_msg "SS2"));
              OpenAiMessage (Some (OpenAi.audio_delta "BBBB" (Some "it1"))) ] in
  streamSid s1 = Some "SS1"
  /\ emitted (run es) s1 =
       [ ConnectionSend (MediaFrame (Some "SS2") "BBBB");
         ConnectionSend (MarkFrame (Some "SS2") "responsePart") ]
  /\ ~ (forall f, In (ConnectionSend f) (emitted (run es) s1) ->
                  frame_streamSid f = Some "SS1").
Proof.
  cbv zeta. split; [reflexivity|]. split; [reflexivity|].
  intros H.
  specialize (H (MediaFrame (Some "SS2") "BBBB") (or_introl eq_refl)).
  discriminate H.
Qed.

(** ** Closing the legs *)

(** C8 fails on the code.  When the speech-AI socket closes or errors
    while a call is in progress, the handlers of lines 257-263 only log: no
    [close] is issued on the telephony connection and the session stays
    half-open, while the handler of line 253 does close the speech-AI socket
    when the telephony connection closes.  And after the telephony
    connection has closed, an audio delta that still arrives is sent on it:
    the sends of lines 166 and 180 have no [readyState] test, unlike the
    send of line 232. *)
Theorem C8_speech_ai_close_leaves_telephony_open :
  dispatch OpenAiClose speaking_at_1200 = (Normal tt, speaking_at_1200, [])
  /\ dispatch OpenAiError speaking_at_1200 = (Normal tt, speaking_at_1200, [])
  /\ ~ In (Close Telephony) (emitted (run [OpenAiClose; OpenAiError]) speaking_at_1200)
  /\ emitted (dispatch (ConnectionClose OPEN)) speaking_at_1200 =
       [Close SpeechAi]
  /\ emitted
       (run [ ConnectionClose OPEN;
              OpenAiMessage (Some (OpenAi.audio_delta "DDDD" (Some "it1"))) ])
       speaking_at_1200 =
       [ Close SpeechAi;
         ConnectionSend (MediaFrame (Some "SS1") "DDDD");
         ConnectionSend (MarkFrame (Some "SS1") "responsePart") ].
Proof.
  split; [reflexivity|]. split; [reflexivity|].
  split; [intros []|]. split; reflexivity.
Qed.

(** * Further properties of the two message callbacks *)

(** ** What a callback does, by the shape of the frame *)

Definition is_speech_started_event (e : Event) : bool :=
  match e with
  | OpenAiMessage (Some r) =>
      String.eqb (OpenAi.type r) "input_audio_buffer.speech_started"
  | _ => false
  end.

(** The audio a telephony frame contributes to the speech-AI leg: the
    payload of a [media] frame that arrives while [openAiWs] is [OPEN]. *)
Definition forwarded_audio (e : Event) : list string :=
  match e with
  | ConnectionMessage OPEN (Some m) =>
      if String.eqb (Twilio.event m) "media" then
        match Twilio.media m with
        | Some md => [Twilio.payload md]
        | None => []
        end
      else []
  | _ => []
  end.

(** The audio a speech-AI event contributes to the telephony leg. *)
Definition relayed_audio (e : Event) : list string :=
  match e with
  | OpenAiMessage (Some r) =>
      if is_audio_delta r then
        match OpenAi.delta r with
        | Some d => [d]
        | None => []
        end
      else []
  | _ => []
  end.

(** Projections of the calls a run made. *)
Definition appended_audio (out : list Effect) : list string :=
  flat_map (fun e => match e with
                     | OpenAiSend (AudioAppend a) => [a]
                     | _ => []
                     end) out.

Definition media_payloads (out : list Effect) : list string :=
  flat_map (fun e => match e with
                     | ConnectionSend (MediaFrame _ p) => [p]
                     | _ => []
                     end) out.

Definition is_mark_send (e : Effect) : bool :=
  match e with
  | ConnectionSend (MarkFrame _ _) => true
  | _ => false
  end.

Definition marks_sent (out : list Effect) : nat :=
  List.length (filter is_mark_send out).

(** A telephony frame the [switch] has no use for: text that is not JSON, a
    [start] or [media] frame without its sub-object, or another event. *)
Definition unusable_telephony_frame (raw : option Twilio.Msg) : Prop :=
  match raw with
  | None => True
  | Some m =>
      (Twilio.event m = "start" /\ Twilio.start m = None)
      \/ (Twilio.event m = "media" /\ Twilio.media m = None)
      \/ (Twilio.event m <> "start" /\ Twilio.event m <> "media"
          /\ Twilio.event m <> "mark")
  end.

(** A [media] frame is acceptable to a clock that never moves back when
    its timestamp is not below [latestMediaTimestamp]. *)
Definition clock_step_ok (e : Event) (s : Session) : bool :=
  match e with
  | ConnectionMessage _ (Some m) =>
      if String.eqb (Twilio.event m) "media" then
        match Twilio.media m with
        | Some md => Z.leb (latestMediaTimestamp s) (Twilio.timestamp md)
        | None => true
        end
      else true
  | _ => true
  end.

Fixpoint clock_never_back (es : list Event) (s : Session) : bool :=
  match es with
  | [] => true
  | e :: es' =>
      clock_step_ok e s && clock_never_back es' (state_after (dispatch e) s)
  end.

(** The captured start of the response is not ahead of the clock. *)
Definition start_not_after_clock (s : Session) : Prop :=
  match responseStartTimestampTwilio s with
  | Some t => t <= latestMediaTimestamp s
  | None => True
  end.

(** The telephony callback by the frame it is given. *)
Lemma connection_on_message_shape
    (r : ReadyState) (raw : option Twilio.Msg) (s : Session) :
  (unusable_telephony_frame raw
   /\ connection_on_message r raw s = (Normal tt, s, []))
  \/ (exists m st,
        raw = Some m /\ Twilio.event m = "start" /\ Twilio.start m = Some st)
  \/ (exists m md,
        raw = Some m /\ Twilio.event m = "media" /\ Twilio.media m = Some md)
  \/ (exists m, raw = Some m /\ Twilio.event m = "mark").
Proof.
  destruct raw as [m|]; [|left; split; [exact I | reflexivity]].
  destruct (String.eqb (Twilio.event m) "start") eqn:E1.
  { apply String.eqb_eq in E1.
    destruct (Twilio.start m) as [st|] eqn:Hst.
    - right; left. exists m, st. auto.
    - left. split; [left; auto|].
      apply connection_on_message_start_absent; assumption. }
  destruct (String.eqb (Twilio.event m) "media") eqn:E2.
  { apply String.eqb_eq in E2.
    destruct (Twilio.media m) as [md|] eqn:Hmd.
    - right; right; left. exists m, md. auto.
    - left. split; [right; left; auto|].
      apply connection_on_message_media_absent; assumption. }
  destruct (String.eqb (Twilio.event m) "mark") eqn:E3.
  { apply String.eqb_eq in E3. right; right; right. exists m. auto. }
  apply String.eqb_neq in E1, E2, E3.
  left. split; [right; right; auto|].
  apply connection_on_message_other; assumption.
Qed.

(** The speech-AI callback by the event it is given. *)
Lemma openAiWs_on_message_shape (data : option OpenAi.Response) (s : Session) :
  (relayed_audio (OpenAiMessage data) = []
   /\ openAiWs_on_message data s = (Normal tt, s, []))
  \/ (exists r d,
        data = Some r /\
        OpenAi.type r = "response.audio.delta" /\
        OpenAi.delta r = Some d /\ Js.truthy_string d = true)
  \/ (exists r t,
        data = Some r /\ is_audio_delta r = false /\
        OpenAi.type r = "input_audio_buffer.speech_started" /\
        markQueue s <> [] /\ responseStartTimestampTwilio s = Some t).
Proof.
  destruct data as [r|]; [|left; split; reflexivity].
  destruct (is_audio_delta r) eqn:Hd.
  { destruct (is_audio_delta_inv r Hd) as (d & Hty & Hdl & Ht).
    right; left. exists r, d. auto. }
  assert (Hrel : relayed_audio (OpenAiMessage (Some r)) = [])
    by (cbn; rewrite Hd; reflexivity).
  destruct (String.eqb (OpenAi.type r)
              "input_audio_buffer.speech_started") eqn:Hty.
  - apply String.eqb_eq in Hty.
    destruct (responseStartTimestampTwilio s) as [t|] eqn:Ht.
    + destruct (markQueue s) as [|q qs] eqn:Hq.
      * left. split; [exact Hrel|].
        apply openAiWs_on_message_no_barge_in; auto.
      * right; right. exists r, t. repeat split; auto. discriminate.
    + left. split; [exact Hrel|].
      apply openAiWs_on_message_no_barge_in; auto.
  - apply String.eqb_neq in Hty.
    left. split; [exact Hrel|]. apply openAiWs_on_message_other; auto.
Qed.

Lemma forwarded_audio_unusable (r : ReadyState) (raw : option Twilio.Msg) :
  unusable_telephony_frame raw ->
  forwarded_audio (ConnectionMessage r raw) = [].
Proof.
  destruct raw as [m|]; cbn; [|destruct r; reflexivity].
  intros [[Hev Hst] | [[Hev Hmd] | (H1 & H2 & H3)]]; destruct r; try reflexivity.
  - rewrite Hev. reflexivity.
  - rewrite Hev, Hmd. reflexivity.
  - apply String.eqb_neq in H2. rewrite H2. reflexivity.
Qed.

(** ** Frames that are dropped *)

(** X1: a telephony frame that is not JSON, a [start] or [media] frame whose
    sub-object is missing, and a frame of any other event than [start],
    [media] and [mark] leave every session variable as it was and make the
    callback send nothing. *)
Theorem unusable_telephony_frame_is_dropped
    (r : ReadyState) (raw : option Twilio.Msg) (s : Session) :
  unusable_telephony_frame raw ->
  connection_on_message r raw s = (Normal tt, s, []).
Proof.
  destruct raw as [m|]; [|reflexivity].
  intros [[Hev Hst] | [[Hev Hmd] | (H1 & H2 & H3)]].
  - apply connection_on_message_start_absent; assumption.
  - apply connection_on_message_media_absent; assumption.
  - apply connection_on_message_other; assumption.
Qed.

Lemma unusable_telephony_frame_is_dropped_witness :
  connection_on_message OPEN
    (Some {| Twilio.event := "media"; Twilio.start := None;
             Twilio.media := None |})
    speaking_at_1200 =
    (Normal tt, speaking_at_1200, []).
Proof.
  apply (unusable_telephony_frame_is_dropped OPEN
           (Some {| Twilio.event := "media"; Twilio.start := None;
                    Twilio.media := None |})
           speaking_at_1200).
  right; left. split; reflexivity.
Defined.

(** X2: a speech-AI event is acted on only if it is a [response.audio.delta]
    with a non-empty [delta] or an [input_audio_buffer.speech_started]:
    text that is not JSON, any other type, and an audio delta whose payload
    is missing or empty change nothing and send nothing (no media frame, no
    mark, no capture of the response start). *)
Theorem unusable_speech_ai_event_is_dropped
    (r : OpenAi.Response) (s : Session) :
  OpenAi.type r <> "input_audio_buffer.speech_started" ->
  OpenAi.type r <> "response.audio.delta"
    \/ OpenAi.delta r = None \/ OpenAi.delta r = Some "" ->
  openAiWs_on_message (Some r) s = (Normal tt, s, [])
  /\ openAiWs_on_message None s = (Normal tt, s, []).
Proof.
  intros Hty Hd. split; [|reflexivity].
  apply openAiWs_on_message_other; [|exact Hty].
  unfold is_audio_delta.
  destruct Hd as [Hd | [Hd | Hd]].
  - apply String.eqb_neq in Hd.
    destruct (OpenAi.delta r); [rewrite Hd|]; reflexivity.
  - rewrite Hd. reflexivity.
  - rewrite Hd. apply andb_false_r.
Qed.

Lemma unusable_speech_ai_event_is_dropped_witness :
  openAiWs_on_message
    (Some (OpenAi.audio_delta "" (Some "it1"))) started_at_500 =
    (Normal tt, started_at_500, [])
  /\ openAiWs_on_message None started_at_500 = (Normal tt, started_at_500, []).
Proof.
  apply (unusable_speech_ai_event_is_dropped
           (OpenAi.audio_delta "" (Some "it1")) started_at_500).
  - discriminate.
  - right; right. reflexivity.
Defined.

(** ** Barge-in runs once *)

(** X3: whatever the state, a second speech-started event right after a first
    one sends nothing and changes nothing: the first either found its guard
    false, or emptied [markQueue], which makes the guard false. *)
Theorem barge_in_is_idempotent (r r' : OpenAi.Response) (s : Session) :
  OpenAi.type r = "input_audio_buffer.speech_started" ->
  OpenAi.type r' = "input_audio_buffer.speech_started" ->
  let s1 := state_after (openAiWs_on_message (Some r)) s in
  openAiWs_on_message (Some r') s1 = (Normal tt, s1, []).
Proof.
  intros Hty Hty' s1.
  apply openAiWs_on_message_no_barge_in; [exact Hty'|].
  unfold s1, state_after.
  destruct (responseStartTimestampTwilio s) as [t|] eqn:Ht.
  - destruct (markQueue s) as [|q qs] eqn:Hq.
    + rewrite openAiWs_on_message_no_barge_in; auto.
    + rewrite (openAiWs_on_message_barge_in s r t); auto.
      rewrite Hq. discriminate.
  - rewrite openAiWs_on_message_no_barge_in; auto.
Qed.

Lemma barge_in_is_idempotent_witness :
  let s1 := state_after (openAiWs_on_message (Some OpenAi.speech_started))
              speaking_at_1200 in
  openAiWs_on_message (Some OpenAi.speech_started) s1 = (Normal tt, s1, []).
Proof.
  apply (barge_in_is_idempotent OpenAi.speech_started OpenAi.speech_started
           speaking_at_1200); reflexivity.
Defined.

(** ** Audio is relayed in order, without loss or duplication *)

Lemma dispatch_appended_audio (e : Event) (s : Session) :
  appended_audio (emitted (dispatch e) s) = forwarded_audio e.
Proof.
  destruct e as [r raw | r | data | | ]; cbn [dispatch]; try reflexivity.
  - unfold emitted.
    destruct (connection_on_message_shape r raw s)
      as [[Hun H] | [(m & st & -> & Hev & Hst)
                    | [(m & md & -> & Hev & Hmd) | (m & -> & Hev)]]].
    + rewrite H, (forwarded_audio_unusable r raw Hun). reflexivity.
    + rewrite (connection_on_message_start r s m st Hev Hst).
      cbn. rewrite Hev. destruct r; reflexivity.
    + rewrite (connection_on_message_media r s m md Hev Hmd).
      cbn. rewrite Hev, Hmd. destruct r; reflexivity.
    + rewrite (connection_on_message_mark r s m Hev).
      cbn. rewrite Hev. destruct r; reflexivity.
  - destruct r; reflexivity.
  - unfold emitted.
    destruct (openAiWs_on_message_shape data s)
      as [[Hrel H] | [(r0 & d & -> & Hty & Hdl & Ht)
                     | (r0 & t & -> & Hnd & Hty & Hq & Ht)]].
    + rewrite H. reflexivity.
    + rewrite (openAiWs_on_message_delta s r0 d Hty Hdl Ht). cbn.
      destruct (Js.truthy_ostring (streamSid s)); reflexivity.
    + rewrite (openAiWs_on_message_barge_in s r0 t Hty Hq Ht). cbn.
      destruct (lastAssistantItem s) as [id|]; [|reflexivity].
      destruct (Js.truthy_string id); reflexivity.
Qed.

Lemma dispatch_media_payloads (e : Event) (s : Session) :
  media_payloads (emitted (dispatch e) s) = relayed_audio e.
Proof.
  destruct e as [r raw | r | data | | ]; cbn [dispatch]; try reflexivity.
  - unfold emitted.
    destruct (connection_on_message_cases r raw s)
      as [H | [(m0 & st & _ & _ & H) | [[md H] | H]]]; rewrite H;
      try reflexivity.
    cbn. destruct (is_OPEN r); reflexivity.
  - destruct r; reflexivity.
  - unfold emitted.
    destruct (openAiWs_on_message_shape data s)
      as [[Hrel H] | [(r0 & d & -> & Hty & Hdl & Ht)
                     | (r0 & t & -> & Hnd & Hty & Hq & Ht)]].
    + rewrite H, Hrel. reflexivity.
    + rewrite (openAiWs_on_message_delta s r0 d Hty Hdl Ht). cbn.
      rewrite (is_audio_delta_intro r0 d Hty Hdl Ht), Hdl.
      destruct (Js.truthy_ostring (streamSid s)); reflexivity.
    + rewrite (openAiWs_on_message_barge_in s r0 t Hty Hq Ht). cbn.
      rewrite Hnd.
      destruct (lastAssistantItem s) as [id|]; [|reflexivity].
      destruct (Js.truthy_string id); reflexivity.
Qed.

(** X4: over any sequence of events and from any state, the audio appended to
    the speech-AI leg is exactly the payloads of the telephony [media]
    frames that arrived while [openAiWs] was [OPEN], in arrival order: each
    once, none altered, and the frames that arrived in another [readyState]
    dropped, not queued. *)
Theorem caller_audio_is_forwarded_in_order (es : list Event) (s : Session) :
  appended_audio (emitted (run es) s) = flat_map forwarded_audio es.
Proof.
  revert s. induction es as [|e es IH]; intros s; [reflexivity|].
  rewrite emitted_cons. unfold appended_audio at 1.
  rewrite flat_map_app. fold (appended_audio (emitted (dispatch e) s)).
  fold (appended_audio (emitted (run es) (state_after (dispatch e) s))).
  rewrite dispatch_appended_audio, IH. reflexivity.
Qed.

(** X5: over any sequence of events and from any state, the payloads of the
    [media] frames sent on the telephony leg are exactly the non-empty
    [delta]s of the [response.audio.delta] events received, in arrival
    order, whether or not a stream has started. *)
Theorem assistant_audio_is_relayed_in_order (es : list Event) (s : Session) :
  media_payloads (emitted (run es) s) = flat_map relayed_audio es.
Proof.
  revert s. induction es as [|e es IH]; intros s; [reflexivity|].
  rewrite emitted_cons. unfold media_payloads at 1.
  rewrite flat_map_app. fold (media_payloads (emitted (dispatch e) s)).
  fold (media_payloads (emitted (run es) (state_after (dispatch e) s))).
  rewrite dispatch_media_payloads, IH. reflexivity.
Qed.

(** ** The mark queue *)

Lemma marks_sent_app (out1 out2 : list Effect) :
  marks_sent (out1 ++ out2) = (marks_sent out1 + marks_sent out2)%nat.
Proof. unfold marks_sent. rewrite filter_app. apply length_app. Qed.

Lemma dispatch_queue_bound (e : Event) (s : Session) :
  Forall (fun m => m = "responsePart") (markQueue s) ->
  Forall (fun m => m = "responsePart") (markQueue (state_after (dispatch e) s))
  /\ (List.length (markQueue (state_after (dispatch e) s)) <=
        List.length (markQueue s) + marks_sent (emitted (dispatch e) s))%nat.
Proof.
  intros Hs.
  assert (Hsame : Forall (fun m => m = "responsePart") (markQueue s)
                  /\ (List.length (markQueue s) <=
                        List.length (markQueue s) + 0)%nat)
    by (split; [exact Hs | lia]).
  destruct e as [r raw | r | data | | ]; cbn [dispatch]; try exact Hsame.
  - unfold state_after, emitted.
    destruct (connection_on_message_cases r raw s)
      as [H | [(m0 & st & _ & _ & H) | [[md H] | H]]]; rewrite H; cbn;
      try exact Hsame.
    + split; [exact Hs | lia].
    + split.
      * destruct (markQueue s) as [|q qs]; [constructor|].
        inversion Hs; assumption.
      * destruct (markQueue s); cbn; lia.
  - destruct r; exact Hsame.
  - unfold state_after, emitted.
    destruct (openAiWs_on_message_shape data s)
      as [[Hrel H] | [(r0 & d & -> & Hty & Hdl & Ht)
                     | (r0 & t & -> & Hnd & Hty & Hq & Ht)]].
    + rewrite H. exact Hsame.
    + rewrite (openAiWs_on_message_delta s r0 d Hty Hdl Ht). cbn.
      destruct (Js.truthy_ostring (streamSid s)); cbn.
      * split.
        -- apply Forall_app. split; [exact Hs|]. repeat constructor.
        -- rewrite length_app. cbn. lia.
      * split; [exact Hs | lia].
    + rewrite (openAiWs_on_message_barge_in s r0 t Hty Hq Ht). cbn.
      split; [constructor | lia].
Qed.

(** X6: after any sequence of events from the initial state, every entry of
    [markQueue] is the name ["responsePart"], and the queue holds at most as
    many entries as [mark] frames were sent on the telephony leg. *)
Theorem mark_queue_bounded_by_marks_sent (es : list Event) :
  Forall (fun m => m = "responsePart")
    (markQueue (state_after (run es) initial))
  /\ (List.length (markQueue (state_after (run es) initial)) <=
        marks_sent (emitted (run es) initial))%nat.
Proof.
  assert (H : forall s,
             Forall (fun m => m = "responsePart") (markQueue s) ->
             Forall (fun m => m = "responsePart")
               (markQueue (state_after (run es) s))
             /\ (List.length (markQueue (state_after (run es) s)) <=
                   List.length (markQueue s) + marks_sent (emitted (run es) s))%nat).
  { induction es as [|e es IH]; intros s Hs.
    - split; [exact Hs | cbn; lia].
    - rewrite state_after_cons, emitted_cons, marks_sent_app.
      destruct (dispatch_queue_bound e s Hs) as [H1 H2].
      destruct (IH _ H1) as [H3 H4]. split; [exact H3 | lia]. }
  destruct (H initial (Forall_nil _)) as [H1 H2].
  split; [exact H1 | exact H2].
Qed.

(** ** Stream identifiers of [mark] frames *)

Lemma dispatch_mark_frames
    (e : Event) (s : Session) (sid : option string) (name : string) :
  In (ConnectionSend (MarkFrame sid name)) (emitted (dispatch e) s) ->
  Js.truthy_ostring sid = true /\ name = "responsePart" /\ sid = streamSid s.
Proof.
  destruct e as [r raw | r | data | | ]; cbn [dispatch].
  - intros Hin.
    destruct (connection_on_message_sends_only_append r raw s _ Hin)
      as [_ [audio Hf]]. discriminate Hf.
  - destruct r; cbn; intros H; try tauto.
    destruct H as [H | []]. discriminate H.
  - unfold emitted.
    destruct (openAiWs_on_message_shape data s)
      as [[Hrel H] | [(r0 & d & -> & Hty & Hdl & Ht)
                     | (r0 & t & -> & Hnd & Hty & Hq & Ht)]].
    + rewrite H. cbn. tauto.
    + rewrite (openAiWs_on_message_delta s r0 d Hty Hdl Ht). cbn.
      intros [H | H]; [discriminate H|].
      destruct (Js.truthy_ostring (streamSid s)) eqn:Hsid; cbn in H; [|tauto].
      destruct H as [H | []]. injection H as <- <-.
      split; [exact Hsid|]. split; reflexivity.
    + rewrite (openAiWs_on_message_barge_in s r0 t Hty Hq Ht). cbn.
      intros H. apply in_app_or in H. destruct H as [H | H].
      * destruct (lastAssistantItem s) as [id|]; [|destruct H].
        destruct (Js.truthy_string id); [|destruct H].
        destruct H as [H | []]. discriminate H.
      * destruct H as [H | []]. discriminate H.
  - cbn. tauto.
  - cbn. tauto.
Qed.

(** X7: over any sequence of events and from any state, every [mark] frame
    sent on the telephony leg is named ["responsePart"] and carries a
    non-empty stream identifier: line 179 sends a mark only under a truthy
    [streamSid].  ([media] and [clear] frames are sent without that test
    and carry whatever [streamSid] holds.) *)
Theorem mark_frames_carry_a_stream
    (es : list Event) (s : Session) (sid : option string) (name : string) :
  In (ConnectionSend (MarkFrame sid name)) (emitted (run es) s) ->
  Js.truthy_ostring sid = true /\ name = "responsePart".
Proof.
  revert s. induction es as [|e es IH]; intros s Hin; [destruct Hin|].
  rewrite emitted_cons in Hin. apply in_app_or in Hin.
  destruct Hin as [Hin | Hin].
  - destruct (dispatch_mark_frames e s sid name Hin) as (H1 & H2 & _).
    split; assumption.
  - apply (IH _ Hin).
Qed.

Lemma mark_frames_carry_a_stream_witness :
  Js.truthy_ostring (Some "SS1") = true /\ "responsePart" = "responsePart".
Proof.
  apply (mark_frames_carry_a_stream scenario_events initial
           (Some "SS1") "responsePart").
  vm_compute. do 2 right. left. reflexivity.
Defined.

(** ** The truncation point *)

Lemma dispatch_start_not_after_clock (e : Event) (s : Session) :
  clock_step_ok e s = true ->
  start_not_after_clock s ->
  start_not_after_clock (state_after (dispatch e) s)
  /\ forall id ci ms,
       In (OpenAiSend (ItemTruncate id ci ms)) (emitted (dispatch e) s) ->
       0 <= ms.
Proof.
  unfold start_not_after_clock. intros Hok Hs.
  assert (Hsame :
            match responseStartTimestampTwilio s with
            | Some t => t <= latestMediaTimestamp s
            | None => True
            end
            /\ forall id ci ms,
                 In (OpenAiSend (ItemTruncate id ci ms)) [] -> 0 <= ms)
    by (split; [exact Hs | intros ? ? ? []]).
  destruct e as [r raw | r | data | | ]; cbn [dispatch]; try exact Hsame.
  - unfold state_after, emitted.
    destruct (connection_on_message_shape r raw s)
      as [[Hun H] | [(m & st & -> & Hev & Hst)
                    | [(m & md & -> & Hev & Hmd) | (m & -> & Hev)]]].
    + rewrite H. exact Hsame.
    + rewrite (connection_on_message_start r s m st Hev Hst). cbn.
      split; [exact I | intros ? ? ? []].
    + rewrite (connection_on_message_media r s m md Hev Hmd). cbn.
      cbn in Hok. rewrite Hev, Hmd in Hok. cbn in Hok.
      apply Z.leb_le in Hok. split.
      * destruct (responseStartTimestampTwilio s); [lia | exact I].
      * intros id ci ms H. destruct (is_OPEN r); cbn in H; [|tauto].
        destruct H as [H | []]. discriminate H.
    + rewrite (connection_on_message_mark r s m Hev). cbn.
      split; [exact Hs | intros ? ? ? []].
  - destruct r; cbn; split; try exact Hs; intros id ci ms H; try tauto.
    destruct H as [H | []]. discriminate H.
  - unfold state_after, emitted.
    destruct (openAiWs_on_message_shape data s)
      as [[Hrel H] | [(r0 & d & -> & Hty & Hdl & Ht)
                     | (r0 & t & -> & Hnd & Hty & Hq & Ht)]].
    + rewrite H. exact Hsame.
    + rewrite (openAiWs_on_message_delta s r0 d Hty Hdl Ht). cbn. split.
      * destruct (responseStartTimestampTwilio s) as [[|p|p]|]; cbn;
          solve [exact Hs | lia].
      * intros id ci ms [H | H]; [discriminate H|].
        destruct (Js.truthy_ostring (streamSid s)); cbn in H; [|tauto].
        destruct H as [H | []]. discriminate H.
    + rewrite (openAiWs_on_message_barge_in s r0 t Hty Hq Ht). cbn.
      rewrite Ht in Hs. split; [exact I|].
      intros id ci ms H. apply in_app_or in H. destruct H as [H | H].
      * destruct (lastAssistantItem s) as [id'|]; [|destruct H].
        destruct (Js.truthy_string id'); [|destruct H].
        destruct H as [H | []]. injection H as _ _ <-. lia.
      * destruct H as [H | []]. discriminate H.
Qed.

(** X8: when no [media] frame carries a timestamp below the clock it finds,
    every truncation the bridge requests has a non-negative [audio_end_ms]:
    the captured start of a response is never ahead of
    [latestMediaTimestamp].  (Line 194 subtracts without a check; a frame
    that moves the clock back below the captured start makes a later
    truncation negative.) *)
Theorem truncation_point_is_non_negative
    (es : list Event) (s : Session) (id : string) (ci ms : Z) :
  clock_never_back es s = true ->
  start_not_after_clock s ->
  In (OpenAiSend (ItemTruncate id ci ms)) (emitted (run es) s) ->
  0 <= ms.
Proof.
  revert s. induction es as [|e es IH]; intros s Hok Hs Hin; [destruct Hin|].
  cbn [clock_never_back] in Hok. apply andb_true_iff in Hok.
  destruct Hok as [Hok1 Hok].
  destruct (dispatch_start_not_after_clock e s Hok1 Hs) as [Hs' Hms].
  rewrite emitted_cons in Hin. apply in_app_or in Hin.
  destruct Hin as [Hin | Hin].
  - apply (Hms id ci ms Hin).
  - apply (IH _ Hok Hs' Hin).
Qed.

Lemma truncation_point_is_non_negative_witness : 0 <= 700.
Proof.
  apply (truncation_point_is_non_negative scenario_events initial "it1" 0 700).
  - reflexivity.
  - exact I.
  - vm_compute. do 6 right. left. reflexivity.
Defined.

(** Without that condition the truncation point can be negative: a
    response that starts at 1200 and is interrupted after a frame stamped
    500 is truncated at -700. *)
Example truncation_point_negative_when_clock_moves_back :
  emitted
    (run [ ConnectionMessage OPEN (Some (Twilio.start_msg "SS1"));
           ConnectionMessage OPEN (Some (Twilio.media_msg 1200 "AAAA"));
           OpenAiMessage (Some (OpenAi.audio_delta "BBBB" (Some "it1")));
           ConnectionMessage CLOSED (Some (Twilio.media_msg 500 "CCCC"));
           OpenAiMessage (Some OpenAi.speech_started) ])
    initial =
    [ OpenAiSend (AudioAppend "AAAA");
      ConnectionSend (MediaFrame (Some "SS1") "BBBB");
      ConnectionSend (MarkFrame (Some "SS1") "responsePart");
      OpenAiSend (ItemTruncate "it1" 0 (-700));
      ConnectionSend (ClearFrame (Some "SS1")) ].
Proof. reflexivity. Qed.

(** ** The life of a captured response start *)

(** X9: a non-zero [responseStartTimestampTwilio] is never replaced by another
    value: after any event it is the same or null, and it becomes null only
    on a telephony [start] frame or on a speech-started event that finds
    [markQueue] non-empty.  Mark acknowledgments, media frames, later deltas
    and a speech-started event on an empty queue all keep it, so it outlives
    a response that played to the end. *)
Theorem captured_start_is_kept_until_cleared
    (e : Event) (s : Session) (t : Z) :
  responseStartTimestampTwilio s = Some t ->
  t <> 0 ->
  responseStartTimestampTwilio (state_after (dispatch e) s) = Some t
  \/ (responseStartTimestampTwilio (state_after (dispatch e) s) = None
      /\ (is_start_event e = true
          \/ (is_speech_started_event e = true /\ markQueue s <> []))).
Proof.
  intros Hs Ht0.
  destruct e as [r raw | r | data | | ]; cbn [dispatch]; try (left; exact Hs).
  - unfold state_after.
    destruct (connection_on_message_shape r raw s)
      as [[Hun H] | [(m & st & -> & Hev & Hst)
                    | [(m & md & -> & Hev & Hmd) | (m & -> & Hev)]]].
    + rewrite H. left; exact Hs.
    + rewrite (connection_on_message_start r s m st Hev Hst). cbn.
      right. split; [reflexivity|]. left. rewrite Hev. reflexivity.
    + rewrite (connection_on_message_media r s m md Hev Hmd). left; exact Hs.
    + rewrite (connection_on_message_mark r s m Hev). left; exact Hs.
  - rewrite state_after_connection_on_close. left; exact Hs.
  - unfold state_after.
    destruct (openAiWs_on_message_shape data s)
      as [[Hrel H] | [(r0 & d & -> & Hty & Hdl & Ht)
                     | (r0 & t' & -> & Hnd & Hty & Hq & Ht)]].
    + rewrite H. left; exact Hs.
    + rewrite (openAiWs_on_message_delta s r0 d Hty Hdl Ht). cbn.
      left. rewrite Hs. unfold Js.truthy_onumber.
      apply Z.eqb_neq in Ht0. rewrite Ht0. reflexivity.
    + rewrite (openAiWs_on_message_barge_in s r0 t' Hty Hq Ht). cbn.
      right. split; [reflexivity|]. right. split; [|exact Hq].
      rewrite Hty. reflexivity.
Qed.

Lemma captured_start_is_kept_until_cleared_witness :
  responseStartTimestampTwilio
    (state_after (dispatch (ConnectionMessage OPEN (Some Twilio.mark_msg)))
       speaking_at_1200) = Some 500
  \/ (responseStartTimestampTwilio
        (state_after (dispatch (ConnectionMessage OPEN (Some Twilio.mark_msg)))
           speaking_at_1200) = None
      /\ (is_start_event (ConnectionMessage OPEN (Some Twilio.mark_msg)) = true
          \/ (is_speech_started_event
                (ConnectionMessage OPEN (Some Twilio.mark_msg)) = true
              /\ markQueue speaking_at_1200 <> []))).
Proof.
  apply (captured_start_is_kept_until_cleared
           (ConnectionMessage OPEN (Some Twilio.mark_msg)) speaking_at_1200 500).
  - reflexivity.
  - lia.
Defined.

(** ** Closing *)

Lemma dispatch_close (e : Event) (s : Session) (l : Leg) :
  In (Close l) (emitted (dispatch e) s) ->
  l = SpeechAi /\ e = ConnectionClose OPEN.
Proof.
  destruct e as [r raw | r | data | | ]; cbn [dispatch].
  - intros Hin.
    destruct (connection_on_message_sends_only_append r raw s _ Hin)
      as [_ [audio Hf]]. discriminate Hf.
  - destruct r; cbn; intros H; try tauto.
    destruct H as [H | []]. injection H as <-. split; reflexivity.
  - unfold emitted.
    destruct (openAiWs_on_message_shape data s)
      as [[Hrel H] | [(r0 & d & -> & Hty & Hdl & Ht)
                     | (r0 & t & -> & Hnd & Hty & Hq & Ht)]].
    + rewrite H. cbn. tauto.
    + rewrite (openAiWs_on_message_delta s r0 d Hty Hdl Ht). cbn.
      intros [H | H]; [discriminate H|].
      destruct (Js.truthy_ostring (streamSid s)); cbn in H; [|tauto].
      destruct H as [H | []]. discriminate H.
    + rewrite (openAiWs_on_message_barge_in s r0 t Hty Hq Ht). cbn.
      intros H. apply in_app_or in H. destruct H as [H | H].
      * destruct (lastAssistantItem s) as [id|]; [|destruct H].
        destruct (Js.truthy_string id); [|destruct H].
        destruct H as [H | []]. discriminate H.
      * destruct H as [H | []]. discriminate H.
  - cbn. tauto.
  - cbn. tauto.
Qed.

(** X10: over any sequence of events, the only socket the callbacks ever close
    is the speech-AI socket, and only in answer to a close of the telephony
    connection that finds it [OPEN]: no message, however malformed, and no
    close or error of the speech-AI socket makes the bridge close a leg. *)
Theorem only_a_telephony_close_closes_a_leg
    (es : list Event) (s : Session) (l : Leg) :
  In (Close l) (emitted (run es) s) ->
  l = SpeechAi /\ In (ConnectionClose OPEN) es.
Proof.
  revert s. induction es as [|e es IH]; intros s Hin; [destruct Hin|].
  rewrite emitted_cons in Hin. apply in_app_or in Hin.
  destruct Hin as [Hin | Hin].
  - destruct (dispatch_close e s l Hin) as [Hl He]. split; [exact Hl|].
    left. exact He.
  - destruct (IH _ Hin) as [Hl He]. split; [exact Hl|]. right. exact He.
Qed.

Lemma only_a_telephony_close_closes_a_leg_witness :
  SpeechAi = SpeechAi
  /\ In (ConnectionClose OPEN)
       (scenario_events ++ [ConnectionClose OPEN; OpenAiClose]).
Proof.
  apply (only_a_telephony_close_closes_a_leg
           (scenario_events ++ [ConnectionClose OPEN; OpenAiClose])
           initial SpeechAi).
  vm_compute. do 8 right. left. reflexivity.
Defined.

(** ** Which callback writes which variable *)

(** X11: the speech-AI callback never assigns [streamSid] or
    [latestMediaTimestamp], and the telephony callback never assigns
    [lastAssistantItem] and never lengthens [markQueue]: the clock and the
    stream identifier are driven by the telephony leg alone, whatever the
    speech-AI leg sends. *)
Theorem writers_are_separate
    (data : option OpenAi.Response) (r : ReadyState)
    (raw : option Twilio.Msg) (s : Session) :
  streamSid (state_after (openAiWs_on_message data) s) = streamSid s
  /\ latestMediaTimestamp (state_after (openAiWs_on_message data) s) =
       latestMediaTimestamp s
  /\ lastAssistantItem (state_after (connection_on_message r raw) s) =
       lastAssistantItem s
  /\ (List.length (markQueue (state_after (connection_on_message r raw) s)) <=
        List.length (markQueue s))%nat.
Proof.
  assert (Hai : streamSid (state_after (openAiWs_on_message data) s) =
                  streamSid s
                /\ latestMediaTimestamp
                     (state_after (openAiWs_on_message data) s) =
                     latestMediaTimestamp s).
  { unfold state_after.
    destruct (openAiWs_on_message_shape data s)
      as [[Hrel H] | [(r0 & d & -> & Hty & Hdl & Ht)
                     | (r0 & t & -> & Hnd & Hty & Hq & Ht)]].
    - rewrite H. split; reflexivity.
    - rewrite (openAiWs_on_message_delta s r0 d Hty Hdl Ht).
      split; reflexivity.
    - rewrite (openAiWs_on_message_barge_in s r0 t Hty Hq Ht).
      split; reflexivity. }
  destruct Hai as [H1 H2].
  split; [exact H1|]. split; [exact H2|]. split.
  - apply connection_on_message_frame.
  - unfold state_after.
    destruct (connection_on_message_cases r raw s)
      as [H | [(m0 & st & _ & _ & H) | [[md H] | H]]]; rewrite H; cbn;
      try lia.
    destruct (markQueue s); cbn; lia.
Qed.

(** * The process around the bridge: start-up checks, [/trigger-call],
      [makeInitialCall] and [initializeSession]

    The built-ins [String.prototype.toLowerCase] and
    [String.prototype.trim] and the constructor of the telephony client are
    parameters of this part; the constructor yields [None] when it throws.
    A value taken from a request body is kept up to what the code asks of
    it: whether it is a string, and whether it is truthy. *)

Module Server.

(** [process.env], lines 11-18 and 79. *)
Record Env := {
  OPENAI_API_KEY : option string;
  TWILIO_ACCOUNT_SID : option string;
  TWILIO_AUTH_TOKEN : option string;
  TWILIO_FROM_NUMBER : option string;
  TARGET_PHONE_NUMBER : option string;
  AUTO_CALL : option string;
  CALLBACK_URL : option string
}.

(** A member of [request.body]. *)
Inductive JsValue :=
| JsString (s : string)
| JsOther (truthy : bool).

Definition truthy_value (v : JsValue) : bool :=
  match v with
  | JsString s => Js.truthy_string s
  | JsOther b => b
  end.

Record TriggerBody := { prompt : JsValue; to : JsValue }.

(** The argument of [twilioClient.calls.create]. *)
Record CallRequest := {
  call_url : option string;
  call_to : option string;
  call_from : option string
}.

(** [reply.code(c).send({ error })] *)
Record Reply := { code : Z; error : string }.

(** The process-wide [let SYSTEM_MESSAGE], line 65. *)
Record Process := { SYSTEM_MESSAGE : string }.

Definition initial_process : Process :=
  {| SYSTEM_MESSAGE :=
       "You are a helpful assistant. You have access to the following information: A car crash has just occurred. It is in Minnesota. There looks to be no fatalities, but one person looks seriously injured. One of the cars is on fire." |}.

Definition VOICE : string := "alloy".

(** The [session] member of the [session.update] frame, lines 129-140.
    [temperature] is the decimal literal [0.8], kept as its digits. *)
Record SessionUpdate := {
  turn_detection_type : string;
  input_audio_format : string;
  output_audio_format : string;
  voice : string;
  instructions : string;
  modalities : list string;
  temperature : string
}.

(** [initializeSession], lines 128-144: the frame it sends on [openAiWs].
    It runs from a timer set 1000 ms after the socket opened (line 148) and
    reads [SYSTEM_MESSAGE] when it runs. *)
Definition initializeSession (p : Process) : SessionUpdate :=
  {| turn_detection_type := "server_vad";
     input_audio_format := "g711_ulaw";
     output_audio_format := "g711_ulaw";
     voice := VOICE;
     instructions := SYSTEM_MESSAGE p;
     modalities := ["text"; "audio"];
     temperature := "0.8" |}.

(** What a run of the [/trigger-call] handler leaves behind. *)
Record Outcome := {
  process_after : Process;
  replied : option Reply;
  threw : bool;
  calls : list CallRequest
}.

(** How the module body ends. *)
Inductive Boot (Client : Type) :=
| Exit (status : Z)
| Crash
| Up (twilioClient : option Client).
Arguments Exit {Client} status.
Arguments Crash {Client}.
Arguments Up {Client} twilioClient.

Section Builtins.

Variable toLowerCase : string -> string.
Variable trim : string -> string.
Variable Client : Type.
Variable Twilio : option string -> option string -> option Client.

(** Lines 11-19: [AUTO_CALL = "true"] applies when the variable is unset. *)
Definition SHOULD_AUTO_CALL (env : Env) : bool :=
  String.eqb
    (toLowerCase match AUTO_CALL env with
                 | Some v => v
                 | None => "true"
                 end)
    "true".

(** The module body up to the registration of the routes: the two checks
    of lines 33-50 and the construction of the client, lines 71-74. *)
Definition startup (env : Env) : Boot Client :=
  if negb (Js.truthy_ostring (OPENAI_API_KEY env)) then Exit 1
  else if SHOULD_AUTO_CALL env
          && (negb (Js.truthy_ostring (TWILIO_ACCOUNT_SID env))
              || negb (Js.truthy_ostring (TWILIO_AUTH_TOKEN env))
              || negb (Js.truthy_ostring (TWILIO_FROM_NUMBER env))
              || negb (Js.truthy_ostring (TARGET_PHONE_NUMBER env)))
       then Exit 1
  else if SHOULD_AUTO_CALL env then
    match Twilio (TWILIO_ACCOUNT_SID env) (TWILIO_AUTH_TOKEN env) with
    | Some client => Up (Some client)
    | None => Crash
    end
  else Up None.

(** The call both [makeInitialCall] and [/trigger-call] ask for. *)
Definition the_call (env : Env) : CallRequest :=
  {| call_url := CALLBACK_URL env;
     call_to := TARGET_PHONE_NUMBER env;
     call_from := TWILIO_FROM_NUMBER env |}.

(** [makeInitialCall], lines 77-89: the calls it asks the client for.  With
    [twilioClient] undefined the member access throws inside the [try]
    block and the [catch] clause logs. *)
Definition makeInitialCall (env : Env) (twilioClient : option Client)
  : list CallRequest :=
  match twilioClient with
  | Some _ => [the_call env]
  | None => []
  end.

(** The handler of [POST /trigger-call], lines 267-297.  [body] is
    [request.body], [None] when it is undefined.  Whether the call is then
    created or rejected changes only what is logged. *)
Definition trigger_call (env : Env) (twilioClient : option Client)
    (body : option TriggerBody) (p : Process) : Outcome :=
  match twilioClient with
  | None =>
      {| process_after := p;
         replied := Some {| code := 400;
                            error := "Auto-call is disabled (AUTO_CALL=false)" |};
         threw := false; calls := [] |}
  | Some _ =>
      match body with
      | None =>
          {| process_after := p; replied := None; threw := true; calls := [] |}
      | Some b =>
          match prompt b with
          | JsString text =>
              if negb (Js.truthy_string (trim text)) then
                {| process_after := p;
                   replied := Some {| code := 400;
                                      error := "Missing or invalid `prompt`" |};
                   threw := false; calls := [] |}
              else
                let p' := {| SYSTEM_MESSAGE := text |} in
                if negb (truthy_value (to b)
                         || Js.truthy_ostring (TARGET_PHONE_NUMBER env)) then
                  {| process_after := p';
                     replied :=
                       Some {| code := 400;
                               error := "No destination number provided or configured" |};
                     threw := false; calls := [] |}
                else
                  {| process_after := p'; replied := None; threw := false;
                     calls := [the_call env] |}
          | JsOther _ =>
              {| process_after := p;
                 replied := Some {| code := 400;
                                    error := "Missing or invalid `prompt`" |};
                 threw := false; calls := [] |}
          end
      end
  end.

(** A request the handler accepts: a string prompt that is not blank. *)
Definition accepted_prompt (body : option TriggerBody) : list string :=
  match body with
  | Some b =>
      match prompt b with
      | JsString text => if Js.truthy_string (trim text) then [text] else []
      | JsOther _ => []
      end
  | None => []
  end.

(** Requests handled one after the other. *)
Fixpoint after_requests (env : Env) (twilioClient : option Client)
    (bodies : list (option TriggerBody)) (p : Process) : Process :=
  match bodies with
  | [] => p
  | body :: rest =>
      after_requests env twilioClient rest
        (process_after (trigger_call env twilioClient body p))
  end.

End Builtins.

(** The built-ins on ASCII text, to run the definitions on examples. *)
Definition ascii_toLowerCase_char (c : Ascii.ascii) : Ascii.ascii :=
  let n := Ascii.nat_of_ascii c in
  if (Nat.leb 65 n && Nat.leb n 90)%bool
  then Ascii.ascii_of_nat (n + 32) else c.

Fixpoint ascii_toLowerCase (s : string) : string :=
  match s with
  | EmptyString => EmptyString
  | String c s' => String (ascii_toLowerCase_char c) (ascii_toLowerCase s')
  end.

Definition ascii_is_space (c : Ascii.ascii) : bool :=
  let n := Ascii.nat_of_ascii c in
  (Nat.leb 9 n && Nat.leb n 13)%bool || Nat.eqb n 32.

Fixpoint ascii_trim_start (s : string) : string :=
  match s with
  | EmptyString => EmptyString
  | String c s' => if ascii_is_space c then ascii_trim_start s' else s
  end.

Fixpoint ascii_trim_end (s : string) : string :=
  match s with
  | EmptyString => EmptyString
  | String c s' =>
      match ascii_trim_end s' with
      | EmptyString => if ascii_is_space c then EmptyString
                       else String c EmptyString
      | rest => String c rest
      end
  end.

Definition ascii_trim (s : string) : string :=
  ascii_trim_end (ascii_trim_start s).

(** A client that records its credentials; the constructor refuses an
    account identifier that does not start with ["AC"]. *)
Definition recording_client (sid token : option string)
  : option (string * string) :=
  match sid, token with
  | Some a, Some t => if String.prefix "AC" a then Some (a, t) else None
  | _, _ => None
  end.

Definition example_env : Env :=
  {| OPENAI_API_KEY := Some "sk-test";
     TWILIO_ACCOUNT_SID := Some "AC0001";
     TWILIO_AUTH_TOKEN := Some "secret";
     TWILIO_FROM_NUMBER := Some "+15550001";
     TARGET_PHONE_NUMBER := Some "+15550002";
     AUTO_CALL := Some "TRUE";
     CALLBACK_URL := Some "https://example.test/incoming-call" |}.

Example startup_example :
  startup ascii_toLowerCase _ recording_client example_env =
    Up (Some ("AC0001", "secret")).
Proof. reflexivity. Qed.

Example trigger_call_example :
  trigger_call ascii_trim _ example_env (Some ("AC0001", "secret"))
    (Some {| prompt := JsString "  A fire on Elm Street. ";
             to := JsString "+15559999" |})
    initial_process =
    {| process_after := {| SYSTEM_MESSAGE := "  A fire on Elm Street. " |};
       replied := None; threw := false;
       calls := [ {| call_url := Some "https://example.test/incoming-call";
                     call_to := Some "+15550002";
                     call_from := Some "+15550001" |} ] |}.
Proof. reflexivity. Qed.

Arguments startup toLowerCase {Client} Twilio env.
Arguments makeInitialCall {Client} env twilioClient.
Arguments trigger_call trim {Client} env twilioClient body p.
Arguments after_requests trim {Client} env twilioClient bodies p.

Section Facts.

Variable toLowerCase : string -> string.
Variable trim : string -> string.
Variable Client : Type.
Variable Twilio : option string -> option string -> option Client.

Lemma startup_up_inv (env : Env) (tc : option Client) :
  startup toLowerCase Twilio env = Up tc ->
  Js.truthy_ostring (OPENAI_API_KEY env) = true
  /\ ((SHOULD_AUTO_CALL toLowerCase env = true
       /\ Js.truthy_ostring (TWILIO_ACCOUNT_SID env) = true
       /\ Js.truthy_ostring (TWILIO_AUTH_TOKEN env) = true
       /\ Js.truthy_ostring (TWILIO_FROM_NUMBER env) = true
       /\ Js.truthy_ostring (TARGET_PHONE_NUMBER env) = true
       /\ exists c, tc = Some c
                    /\ Twilio (TWILIO_ACCOUNT_SID env) (TWILIO_AUTH_TOKEN env)
                       = Some c)
      \/ (SHOULD_AUTO_CALL toLowerCase env = false /\ tc = None)).
Proof.
  unfold startup.
  destruct (Js.truthy_ostring (OPENAI_API_KEY env)); cbn; [|discriminate].
  destruct (SHOULD_AUTO_CALL toLowerCase env); cbn.
  - destruct (Js.truthy_ostring (TWILIO_ACCOUNT_SID env)); cbn; [|discriminate].
    destruct (Js.truthy_ostring (TWILIO_AUTH_TOKEN env)); cbn; [|discriminate].
    destruct (Js.truthy_ostring (TWILIO_FROM_NUMBER env)); cbn; [|discriminate].
    destruct (Js.truthy_ostring (TARGET_PHONE_NUMBER env)); cbn; [|discriminate].
    destruct (Twilio (TWILIO_ACCOUNT_SID env) (TWILIO_AUTH_TOKEN env)) as [c|];
      [|discriminate].
    intros H. injection H as <-. split; [reflexivity|]. left.
    repeat split. exists c. split; reflexivity.
  - intros H. injection H as <-. split; [reflexivity|]. right.
    split; reflexivity.
Qed.

Lemma last_app_default {A : Type} (l1 l2 : list A) (d : A) :
  last (l1 ++ l2) d = last l2 (last l1 d).
Proof.
  revert d. induction l1 as [|a l1 IH]; intros d; [reflexivity|].
  rewrite <- app_comm_cons, !last_cons_default. apply IH.
Qed.

(** ** Start-up *)

(** X12: when the module body gets as far as registering the routes, the API
    key is set and non-empty; the telephony client exists exactly when
    auto-calling is on; and when it exists the account identifier, the
    token, the caller number and the target number are all set and
    non-empty, and the client was built from the first two. *)
Theorem startup_guarantees (env : Env) (tc : option Client) :
  startup toLowerCase Twilio env = Up tc ->
  Js.truthy_ostring (OPENAI_API_KEY env) = true
  /\ (tc <> None <-> SHOULD_AUTO_CALL toLowerCase env = true)
  /\ (tc <> None ->
        Js.truthy_ostring (TWILIO_ACCOUNT_SID env) = true
        /\ Js.truthy_ostring (TWILIO_AUTH_TOKEN env) = true
        /\ Js.truthy_ostring (TWILIO_FROM_NUMBER env) = true
        /\ Js.truthy_ostring (TARGET_PHONE_NUMBER env) = true
        /\ tc = Twilio (TWILIO_ACCOUNT_SID env) (TWILIO_AUTH_TOKEN env)).
Proof.
  intros H. destruct (startup_up_inv env tc H) as [Hkey Hcases].
  split; [exact Hkey|].
  destruct Hcases as [(Hs & H1 & H2 & H3 & H4 & c & -> & Hc) | [Hs ->]].
  - split; [split; [intros _; exact Hs | intros _; discriminate]|].
    intros _. repeat split; try assumption. symmetry. exact Hc.
  - split; [split; [intros Hn; exfalso; apply Hn; reflexivity
                   | rewrite Hs; discriminate]|].
    intros Hn. exfalso. apply Hn. reflexivity.
Qed.

(** X13: with [AUTO_CALL] unset the default ["true"] applies: the process exits
    with status 1 unless all four telephony variables are set and
    non-empty, whatever else is configured. *)
Theorem startup_unset_auto_call_requires_telephony (env : Env) :
  toLowerCase "true" = "true" ->
  AUTO_CALL env = None ->
  Js.truthy_ostring (TWILIO_ACCOUNT_SID env) = false
  \/ Js.truthy_ostring (TWILIO_AUTH_TOKEN env) = false
  \/ Js.truthy_ostring (TWILIO_FROM_NUMBER env) = false
  \/ Js.truthy_ostring (TARGET_PHONE_NUMBER env) = false ->
  startup toLowerCase Twilio env = Exit 1.
Proof.
  intros Hlow Hauto Hmiss. unfold startup, SHOULD_AUTO_CALL.
  rewrite Hauto, Hlow. cbn.
  destruct (Js.truthy_ostring (OPENAI_API_KEY env)); cbn; [|reflexivity].
  destruct Hmiss as [H | [H | [H | H]]]; rewrite H; cbn;
    rewrite ?orb_true_r; reflexivity.
Qed.

(** ** [/trigger-call] *)

(** X14: in a process that started, the handler of [/trigger-call] ends in one
    of three ways.  It replies, always with status 400, never with "No
    destination number provided or configured", and then [SYSTEM_MESSAGE]
    is unchanged and no call is asked for.  Or it throws, only on a missing
    body, with the same two effects.  Or it sends no reply at all: the
    prompt was a non-blank string, [SYSTEM_MESSAGE] is that string as
    received (not trimmed), and the one call asked for is the call of
    [makeInitialCall]. *)
Theorem trigger_call_outcomes
    (env : Env) (tc : option Client) (body : option TriggerBody) (p : Process) :
  startup toLowerCase Twilio env = Up tc ->
  let out := trigger_call trim env tc body p in
  (forall r, replied out = Some r ->
     code r = 400
     /\ error r <> "No destination number provided or configured"
     /\ threw out = false /\ process_after out = p /\ calls out = [])
  /\ (threw out = true ->
        body = None /\ replied out = None
        /\ process_after out = p /\ calls out = [])
  /\ (replied out = None -> threw out = false ->
        exists text,
          accepted_prompt trim body = [text]
          /\ process_after out = {| SYSTEM_MESSAGE := text |}
          /\ calls out = [the_call env]
          /\ calls out = makeInitialCall env tc).
Proof.
  intros Hup out. subst out.
  destruct (startup_up_inv env tc Hup) as [_ Hcases].
  unfold trigger_call, accepted_prompt, makeInitialCall.
  destruct Hcases as [(_ & _ & _ & _ & Htarget & c & -> & _) | [_ ->]].
  - destruct body as [b|]; cbn.
    + destruct (prompt b) as [text | other]; cbn.
      * destruct (Js.truthy_string (trim text)); cbn.
        -- rewrite Htarget, orb_true_r. cbn.
           split; [intros r H; discriminate H|].
           split; [intros H; discriminate H|].
           intros _ _. exists text. repeat split.
        -- split.
           { intros r H. injection H as <-. cbn. repeat split. discriminate. }
           split; [intros H; discriminate H | intros H; discriminate H].
      * split.
        { intros r H. injection H as <-. cbn. repeat split. discriminate. }
        split; [intros H; discriminate H | intros H; discriminate H].
    + split; [intros r H; discriminate H|].
      split; [intros _; repeat split | intros _ H; discriminate H].
  - cbn. split.
    { intros r H. injection H as <-. cbn. repeat split. discriminate. }
    split; [intros H; discriminate H | intros H; discriminate H].
Qed.

(** X15: in a process that started, the [to] member of the request has no
    effect at all: two requests with the same prompt leave the same
    [SYSTEM_MESSAGE], get the same reply and ask for the same call, which
    goes to [TARGET_PHONE_NUMBER]. *)
Theorem trigger_call_ignores_to
    (env : Env) (tc : option Client) (text to1 to2 : JsValue) (p : Process) :
  startup toLowerCase Twilio env = Up tc ->
  trigger_call trim env tc (Some {| prompt := text; to := to1 |}) p =
    trigger_call trim env tc (Some {| prompt := text; to := to2 |}) p
  /\ forall c,
       In c (calls (trigger_call trim env tc
                      (Some {| prompt := text; to := to1 |}) p)) ->
       call_to c = TARGET_PHONE_NUMBER env.
Proof.
  intros Hup. destruct (startup_up_inv env tc Hup) as [_ Hcases].
  unfold trigger_call.
  destruct Hcases as [(_ & _ & _ & _ & Htarget & c & -> & _) | [_ ->]]; cbn.
  - destruct text as [s | other]; cbn.
    + rewrite Htarget, !orb_true_r. cbn.
      destruct (Js.truthy_string (trim s)); cbn.
      * split; [reflexivity|]. intros c0 [<- | []]. reflexivity.
      * split; [reflexivity|]. intros c0 [].
    + split; [reflexivity|]. intros c0 [].
  - split; [reflexivity|]. intros c0 [].
Qed.

(** ** The prompt a session is configured with *)

Lemma process_after_trigger_call
    (env : Env) (c : Client) (body : option TriggerBody) (p : Process) :
  Js.truthy_ostring (TARGET_PHONE_NUMBER env) = true ->
  SYSTEM_MESSAGE (process_after (trigger_call trim env (Some c) body p)) =
    last (accepted_prompt trim body) (SYSTEM_MESSAGE p).
Proof.
  intros Htarget. unfold trigger_call, accepted_prompt.
  destruct body as [b|]; [|reflexivity].
  destruct (prompt b) as [text | other]; [|reflexivity].
  destruct (Js.truthy_string (trim text)); cbn; [|reflexivity].
  rewrite Htarget, orb_true_r. reflexivity.
Qed.

(** X16: [SYSTEM_MESSAGE] is process-wide and [initializeSession] reads it when
    it runs: in a process that started with auto-calling on, the
    [instructions] a session is configured with are the prompt of the last
    accepted [/trigger-call] request handled before, as received, or the
    previous value if none was accepted; with auto-calling off no request
    changes them. *)
Theorem session_instructions_are_last_accepted_prompt
    (env : Env) (tc : option Client)
    (bodies : list (option TriggerBody)) (p : Process) :
  startup toLowerCase Twilio env = Up tc ->
  instructions (initializeSession (after_requests trim env tc bodies p)) =
    match tc with
    | Some _ => last (flat_map (accepted_prompt trim) bodies) (SYSTEM_MESSAGE p)
    | None => SYSTEM_MESSAGE p
    end.
Proof.
  intros Hup. destruct (startup_up_inv env tc Hup) as [_ Hcases].
  cbn [initializeSession instructions].
  destruct Hcases as [(_ & _ & _ & _ & Htarget & c & -> & _) | [_ ->]].
  - revert p. induction bodies as [|body rest IH]; intros p; [reflexivity|].
    cbn [after_requests flat_map]. rewrite IH, last_app_default.
    rewrite (process_after_trigger_call env c body p Htarget). reflexivity.
  - revert p. induction bodies as [|body rest IH]; intros p; [reflexivity|].
    cbn [after_requests]. rewrite IH. reflexivity.
Qed.

End Facts.

Lemma startup_guarantees_witness :
  Js.truthy_ostring (OPENAI_API_KEY example_env) = true
  /\ (Some ("AC0001", "secret") <> None <->
        SHOULD_AUTO_CALL ascii_toLowerCase example_env = true)
  /\ (Some ("AC0001", "secret") <> None ->
        Js.truthy_ostring (TWILIO_ACCOUNT_SID example_env) = true
        /\ Js.truthy_ostring (TWILIO_AUTH_TOKEN example_env) = true
        /\ Js.truthy_ostring (TWILIO_FROM_NUMBER example_env) = true
        /\ Js.truthy_ostring (TARGET_PHONE_NUMBER example_env) = true
        /\ Some ("AC0001", "secret") =
             recording_client (TWILIO_ACCOUNT_SID example_env)
               (TWILIO_AUTH_TOKEN example_env)).
Proof.
  apply (startup_guarantees ascii_toLowerCase (string * string)
           recording_client example_env (Some ("AC0001", "secret"))).
  reflexivity.
Defined.

Definition env_without_target : Env :=
  {| OPENAI_API_KEY := Some "sk-test";
     TWILIO_ACCOUNT_SID := Some "AC0001";
     TWILIO_AUTH_TOKEN := Some "secret";
     TWILIO_FROM_NUMBER := Some "+15550001";
     TARGET_PHONE_NUMBER := None;
     AUTO_CALL := None;
     CALLBACK_URL := None |}.

Lemma startup_unset_auto_call_requires_telephony_witness :
  startup ascii_toLowerCase recording_client env_without_target = Exit 1.
Proof.
  apply (startup_unset_auto_call_requires_telephony ascii_toLowerCase
           (string * string) recording_client env_without_target).
  - reflexivity.
  - reflexivity.
  - right; right; right. reflexivity.
Defined.

Definition example_body : option TriggerBody :=
  Some {| prompt := JsString "  A fire on Elm Street. ";
          to := JsString "+15559999" |}.

Lemma trigger_call_outcomes_witness :
  let out := trigger_call ascii_trim example_env (Some ("AC0001", "secret"))
               example_body initial_process in
  (forall r, replied out = Some r ->
     code r = 400
     /\ error r <> "No destination number provided or configured"
     /\ threw out = false /\ process_after out = initial_process
     /\ calls out = [])
  /\ (threw out = true ->
        example_body = None /\ replied out = None
        /\ process_after out = initial_process /\ calls out = [])
  /\ (replied out = None -> threw out = false ->
        exists text,
          accepted_prompt ascii_trim example_body = [text]
          /\ process_after out = {| SYSTEM_MESSAGE := text |}
          /\ calls out = [the_call example_env]
          /\ calls out = makeInitialCall example_env (Some ("AC0001", "secret"))).
Proof.
  apply (trigger_call_outcomes ascii_toLowerCase ascii_trim (string * string)
           recording_client example_env (Some ("AC0001", "secret"))
           example_body initial_process).
  reflexivity.
Defined.

Lemma trigger_call_ignores_to_witness :
  trigger_call ascii_trim example_env (Some ("AC0001", "secret"))
    (Some {| prompt := JsString "A fire."; to := JsString "+15559999" |})
    initial_process =
    trigger_call ascii_trim example_env (Some ("AC0001", "secret"))
      (Some {| prompt := JsString "A fire."; to := JsOther false |})
      initial_process
  /\ forall c,
       In c (calls (trigger_call ascii_trim example_env
                      (Some ("AC0001", "secret"))
                      (Some {| prompt := JsString "A fire.";
                               to := JsString "+15559999" |})
                      initial_process)) ->
       call_to c = TARGET_PHONE_NUMBER example_env.
Proof.
  apply (trigger_call_ignores_to ascii_toLowerCase ascii_trim (string * string)
           recording_client example_env (Some ("AC0001", "secret"))
           (JsString "A fire.") (JsString "+15559999") (JsOther false)
           initial_process).
  reflexivity.
Defined.

Lemma session_instructions_are_last_accepted_prompt_witness :
  instructions
    (initializeSession
       (after_requests ascii_trim example_env (Some ("AC0001", "secret"))
          [ Some {| prompt := JsString "A fire."; to := JsOther false |};
            Some {| prompt := JsString "A flood."; to := JsOther false |};
            Some {| prompt := JsString "   "; to := JsOther false |};
            None ]
          initial_process)) =
    "A flood.".
Proof.
  apply (session_instructions_are_last_accepted_prompt ascii_toLowerCase
           ascii_trim (string * string) recording_client example_env
           (Some ("AC0001", "secret"))
           [ Some {| prompt := JsString "A fire."; to := JsOther false |};
             Some {| prompt := JsString "A flood."; to := JsOther false |};
             Some {| prompt := JsString "   "; to := JsOther false |};
             None ]
           initial_process).
  reflexivity.
Defined.

End Server.
